(** * AASHTO 1993 flexible-pavement design calculator

    A shallow embedding of the numeric core of the two Streamlit scripts
    [SN.py] (the residual of the design equation, handed to a root
    finder) and [SN1.py] (the hand-written bisection), and the properties
    of that core.  The widgets, the rendering of the page, the formatting
    of numbers and the library root finder are outside the embedding.

    Numbers.  The scripts compute in binary64.  Here a value that is
    known to be finite is a real number and arithmetic on finite values
    is exact (no rounding, no overflow); a value that went through numpy
    is a [npfloat]: a real number or one of the special values [inf],
    [-inf], [nan] that numpy produces, with a warning, where Python would
    raise (there is one zero, taken as [+0.0]).  The reliability table is
    kept over [Q], where the lookup computes.

    Two things follow from exact arithmetic and bound what is stated
    below.  A midpoint of the bracket never coincides with one of its
    ends, whereas in binary64 the midpoint rounds onto an end after some
    54 halvings: bounds on what the solver returns are therefore stated
    with [<=].  And no result leaves the range of binary64, whereas
    Python's [float ** float] raises [OverflowError] when it does (for a
    base above about [2.5e59] under the exponent 5.19): statements about
    which kind of value the evaluator returns are restricted to
    arguments of magnitude at most [1e58]. *)

From Stdlib Require Import Reals Lra Lia ZArith QArith Qreals List Bool.
Import ListNotations.
Open Scope R_scope.

(** ** Numbers *)

Definition Rltb (a b : R) : bool := if Rlt_dec a b then true else false.
Definition Reqb (a b : R) : bool := if Req_dec_T a b then true else false.

Definition log10 (x : R) : R := ln x / ln 10.

Module NumPy.

(** An [np.float64]: finite, [inf], [-inf] or [nan]. *)
Inductive npfloat : Type :=
| Fin (r : R)
| PInf
| NInf
| NaN.

Definition inf_of (positive : bool) : npfloat :=
  if positive then PInf else NInf.

(** [±inf * r] for a finite [r]: the sign follows [r], and [inf * 0] is
    [nan]. *)
Definition scale_inf (positive : bool) (r : R) : npfloat :=
  if Rlt_dec 0 r then inf_of positive
  else if Rlt_dec r 0 then inf_of (negb positive)
  else NaN.

Definition f_opp (x : npfloat) : npfloat :=
  match x with
  | Fin a => Fin (- a)
  | PInf => NInf
  | NInf => PInf
  | NaN => NaN
  end.

Definition f_add (x y : npfloat) : npfloat :=
  match x with
  | NaN => NaN
  | Fin a =>
      match y with Fin b => Fin (a + b) | _ => y end
  | PInf =>
      match y with NInf | NaN => NaN | _ => PInf end
  | NInf =>
      match y with PInf | NaN => NaN | _ => NInf end
  end.

Definition f_sub (x y : npfloat) : npfloat := f_add x (f_opp y).

Definition f_mul (x y : npfloat) : npfloat :=
  match x with
  | NaN => NaN
  | Fin a =>
      match y with
      | Fin b => Fin (a * b)
      | PInf => scale_inf true a
      | NInf => scale_inf false a
      | NaN => NaN
      end
  | PInf =>
      match y with
      | Fin b => scale_inf true b
      | PInf => PInf
      | NInf => NInf
      | NaN => NaN
      end
  | NInf =>
      match y with
      | Fin b => scale_inf false b
      | PInf => NInf
      | NInf => PInf
      | NaN => NaN
      end
  end.

(** numpy's [true_divide]: a zero divisor gives [±inf] or [nan] (and a
    warning), it does not raise. *)
Definition f_div (x y : npfloat) : npfloat :=
  match x with
  | NaN => NaN
  | Fin a =>
      match y with
      | Fin b =>
          if Req_dec_T b 0
          then (if Rlt_dec 0 a then PInf
                else if Rlt_dec a 0 then NInf else NaN)
          else Fin (a / b)
      | PInf | NInf => Fin 0
      | NaN => NaN
      end
  | PInf =>
      match y with
      | Fin b => if Rlt_dec b 0 then NInf else PInf
      | _ => NaN
      end
  | NInf =>
      match y with
      | Fin b => if Rlt_dec b 0 then PInf else NInf
      | _ => NaN
      end
  end.

Definition f_abs (x : npfloat) : npfloat :=
  match x with
  | Fin a => Fin (Rabs a)
  | PInf | NInf => PInf
  | NaN => NaN
  end.

(** [x < y]: every comparison with [nan] is [False]. *)
Definition f_ltb (x y : npfloat) : bool :=
  match x with
  | NaN | PInf => false
  | Fin a =>
      match y with Fin b => Rltb a b | PInf => true | _ => false end
  | NInf =>
      match y with Fin _ | PInf => true | _ => false end
  end.

(** [np.log10] of a finite argument: [-inf] at zero and [nan] below it,
    each with a [RuntimeWarning] only. *)
Definition np_log10 (x : R) : npfloat :=
  if Rlt_dec 0 x then Fin (log10 x)
  else if Req_dec_T x 0 then NInf
  else NaN.

(** [10 ** x] for an [np.float64] exponent (numpy's reflected power). *)
Definition np_pow10 (x : npfloat) : npfloat :=
  match x with
  | Fin a => Fin (Rpower 10 a)
  | PInf => PInf
  | NInf => Fin 0
  | NaN => NaN
  end.

(** [x ** y] on an array element, for a positive exponent that is not an
    integer: a negative base gives [nan]. *)
Definition np_power (x y : R) : npfloat :=
  if Rlt_dec 0 x then Fin (Rpower x y)
  else if Req_dec_T x 0 then Fin 0
  else NaN.

End NumPy.
Export NumPy.

(** ** Python values and outcomes *)

Inductive pyexn : Type :=
| ZeroDivisionError
| UnboundLocalError.

(** What [calculate_w18] and [solve_for_sn] can return.  A negative base
    under the power [** 5.19] makes the whole result complex (a numpy
    [complex128], once the numpy logarithm is divided by it); its real
    part is then [nan] (the logarithm of the same negative number), so the
    value is kept as one constructor. *)
Inductive pyvalue : Type :=
| PyNone
| PyFloat (x : npfloat)
| PyComplexNaN.

Inductive outcome (A : Type) : Type :=
| Return (a : A)
| Raise (e : pyexn).
Arguments Return {A} a.
Arguments Raise {A} e.

(** The result of Python's [float ** float] for a positive exponent that
    is not an integer, as long as it stays in the range of binary64 (the
    [OverflowError] beyond it has no counterpart in exact arithmetic). *)
Inductive pow_result : Type :=
| PowFloat (r : R)
| PowComplex.

Definition py_pow (x y : R) : pow_result :=
  if Rlt_dec 0 x then PowFloat (Rpower x y)
  else if Req_dec_T x 0 then PowFloat 0
  else PowComplex.

(** Python's [/] on two Python numbers raises on a zero divisor. *)
Definition py_truediv (a b : R) : outcome R :=
  if Req_dec_T b 0 then Raise ZeroDivisionError else Return (a / b).

(** ** Reliability resolver ([get_zr], the same in both scripts) *)

Definition zr_values : list (Q * Q) :=
  [ (50, 0); (60, -0.253); (70, -0.524); (75, -0.674);
    (80, -0.841); (85, -1.037); (90, -1.282); (95, -1.645);
    (99, -2.327); (99.9, -3.090) ]%Q.

(** [dict.get(key, default)]; keys compare by numeric value. *)
Fixpoint dict_get (d : list (Q * Q)) (key default : Q) : Q :=
  match d with
  | [] => default
  | (k, v) :: d' => if Qeq_bool k key then v else dict_get d' key default
  end.

Definition get_zr (reliability : Q) : Q :=
  dict_get zr_values reliability (-1.645)%Q.

(** ** Design equation *)

(** [calculate_w18] of [SN1.py].  Short of an overflow of the power, the
    only operation that can raise is the Python division
    [1094 / (sn + 1)**5.19]; the bare [except] turns that into [None]. *)
Definition calculate_w18 (sn zr so delta_psi mr : R) : pyvalue :=
  let term1 := zr * so in
  let term2 := f_sub (f_mul (Fin 9.36) (np_log10 (sn + 1))) (Fin 0.20) in
  match py_pow (sn + 1) 5.19 with
  | PowComplex => PyComplexNaN
  | PowFloat p =>
      match py_truediv 1094 p with
      | Raise _ => PyNone
      | Return q =>
          let term3 :=
            f_div (np_log10 (delta_psi / (4.2 - 1.5))) (Fin (0.40 + q)) in
          let term4 := f_sub (f_mul (Fin 2.32) (np_log10 mr)) (Fin 8.07) in
          let log_w18 := f_add (f_add (f_add (Fin term1) term2) term3) term4 in
          let w18_calc := np_pow10 log_w18 in
          PyFloat w18_calc
      end
  end.

(** [aashto_equation] of [SN.py].  The root finder calls it with [sn] a
    one-element array, so every operation is numpy's and nothing raises. *)
Definition aashto_equation (sn w18 zr so delta_psi mr : R) : npfloat :=
  let term1 := zr * so in
  let term2 := f_sub (f_mul (Fin 9.36) (np_log10 (sn + 1))) (Fin 0.20) in
  let term3 :=
    f_div (np_log10 (delta_psi / (4.2 - 1.5)))
          (f_add (Fin 0.40) (f_div (Fin 1094) (np_power (sn + 1) 5.19))) in
  let term4 := f_sub (f_mul (Fin 2.32) (np_log10 mr)) (Fin 8.07) in
  let log_w18_calc := f_add (f_add (f_add (Fin term1) term2) term3) term4 in
  let w18_calc := np_pow10 log_w18_calc in
  f_sub w18_calc (Fin (w18 * 1e6)).

(** The AASHTO 1993 equation as the specification writes it. *)
Definition aashto_1993_log_w18 (sn zr so delta_psi mr : R) : R :=
  zr * so + 9.36 * log10 (sn + 1) - 0.20
  + log10 (delta_psi / 2.7) / (0.40 + 1094 / Rpower (sn + 1) 5.19)
  + 2.32 * log10 mr - 8.07.

Definition aashto_1993_w18 (sn zr so delta_psi mr : R) : R :=
  Rpower 10 (aashto_1993_log_w18 sn zr so delta_psi mr).

(** ** Bisection solver ([solve_for_sn] of [SN1.py]) *)

(** How the [for] loop is left. *)
Inductive loop_exit : Type :=
| ReturnedNone                    (* [return None]: the evaluation failed *)
| ReturnedMid (sn_mid : R)        (* [return sn_mid]: tolerance met *)
| Exhausted (sn_mid : option R).  (* the range is used up *)

Section Bisection.

Variables zr so delta_psi mr : R.
Variable w18_target_units : R.
Variable tolerance : R.

(** [n] iterations of the loop body from the bracket
    [(sn_low, sn_high)]; [sn_mid] is the loop variable as the previous
    iteration left it (unbound before the first one). *)
Fixpoint bisect (n : nat) (sn_low sn_high : R) (sn_mid : option R)
  : loop_exit :=
  match n with
  | O => Exhausted sn_mid
  | S n' =>
      let sn_mid := (sn_low + sn_high) / 2 in
      match calculate_w18 sn_mid zr so delta_psi mr with
      | PyNone => ReturnedNone
      | PyComplexNaN =>
          (* [abs] of the complex difference is [nan] and the tolerance
             test fails; numpy orders complex numbers, and the
             comparison with a [nan] part is false *)
          bisect n' sn_low sn_mid (Some sn_mid)
      | PyFloat w18_calc =>
          let error := f_abs (f_sub w18_calc (Fin w18_target_units)) in
          if f_ltb error (Fin (w18_target_units * tolerance))
          then ReturnedMid sn_mid
          else if f_ltb w18_calc (Fin w18_target_units)
               then bisect n' sn_mid sn_high (Some sn_mid)
               else bisect n' sn_low sn_mid (Some sn_mid)
      end
  end.

End Bisection.

Definition solve_for_sn
  (w18_target zr so delta_psi mr tolerance : R) (max_iterations : Z)
  : outcome pyvalue :=
  let w18_target_units := w18_target * 1e6 in
  let sn_low := 0.1 in
  let sn_high := 15.0 in
  match bisect zr so delta_psi mr w18_target_units tolerance
               (Z.to_nat max_iterations) sn_low sn_high None with
  | ReturnedNone => Return PyNone
  | ReturnedMid sn_mid => Return (PyFloat (Fin sn_mid))
  | Exhausted (Some sn_mid) => Return (PyFloat (Fin sn_mid))
  | Exhausted None => Raise UnboundLocalError
  end.

(** The call with the default [tolerance=0.01, max_iterations=100]. *)
Definition solve_for_sn_default (w18_target zr so delta_psi mr : R)
  : outcome pyvalue :=
  solve_for_sn w18_target zr so delta_psi mr 0.01 100.

(** The caller's test [if sn_solution and sn_solution > 0] on what the
    solver returned: [None] and [0.0] are falsy, and no comparison with
    [nan] holds. *)
Definition solution_accepted (sn_solution : pyvalue) : bool :=
  match sn_solution with
  | PyFloat (Fin sn) => negb (Reqb sn 0) && Rltb 0 sn
  | PyFloat PInf => true
  | _ => false
  end.

(** ** Capacity check (the layer section of the page) *)

Section Capacity.

Variables a1 d1 a2 d2 m2 a3 d3 m3 : R.

Definition sn_provided : R := a1 * d1 + a2 * d2 * m2 + a3 * d3 * m3.

Definition difference (sn_solution : R) : R := sn_provided - sn_solution.

(** [sn_provided >= sn_solution], the branch that reports an adequate
    design. *)
Definition adequate (sn_solution : R) : bool :=
  negb (Rltb sn_provided sn_solution).

(** The numbers of the ["Percentage"] column of [contribution_data],
    before they are formatted; the list is built left to right, and a
    zero [sn_provided] raises at its first element. *)
Definition contribution_percentages : outcome (R * R * R) :=
  match py_truediv (a1 * d1) sn_provided with
  | Raise e => Raise e
  | Return q1 =>
      match py_truediv (a2 * d2 * m2) sn_provided with
      | Raise e => Raise e
      | Return q2 =>
          match py_truediv (a3 * d3 * m3) sn_provided with
          | Raise e => Raise e
          | Return q3 => Return (q1 * 100, q2 * 100, q3 * 100)
          end
      end
  end.

End Capacity.

(** ** The solver as the specification describes it

    A state machine over the bracket: [Iterating] until the tolerance is
    met ([Converged]) or the iterations are used up
    ([MaxIterationsReached]). *)

Inductive solver_state : Type :=
| Iterating (sn_low sn_high : R) (remaining : nat) (last_mid : option R)
| Converged (structural_number : R)
| MaxIterationsReached (structural_number : R).

Section SpecSolver.

(** [evaluates sn w]: the design equation evaluated at [sn] gives [w]. *)
Variable evaluates : R -> npfloat -> Prop.
Variables target tolerance : R.

Definition within_tolerance (w : npfloat) : Prop :=
  f_ltb (f_abs (f_sub w (Fin target))) (Fin (target * tolerance)) = true.

Definition below_target (w : npfloat) : Prop :=
  f_ltb w (Fin target) = true.

Inductive bisection_step : solver_state -> solver_state -> Prop :=
| step_converged low high k last w :
    evaluates ((low + high) / 2) w ->
    within_tolerance w ->
    bisection_step (Iterating low high (S k) last)
                   (Converged ((low + high) / 2))
| step_raise_low low high k last w :
    evaluates ((low + high) / 2) w ->
    ~ within_tolerance w ->
    below_target w ->
    bisection_step (Iterating low high (S k) last)
                   (Iterating ((low + high) / 2) high k
                              (Some ((low + high) / 2)))
| step_lower_high low high k last w :
    evaluates ((low + high) / 2) w ->
    ~ within_tolerance w ->
    ~ below_target w ->
    bisection_step (Iterating low high (S k) last)
                   (Iterating low ((low + high) / 2) k
                              (Some ((low + high) / 2)))
| step_exhausted low high mid :
    bisection_step (Iterating low high 0 (Some mid))
                   (MaxIterationsReached mid).

Inductive bisection_run : solver_state -> solver_state -> Prop :=
| run_done s : bisection_run s s
| run_step s s' s'' :
    bisection_step s s' -> bisection_run s' s'' -> bisection_run s s''.

End SpecSolver.

(** The evaluator that the solver of [SN1.py] calls, as the relation the
    state machine takes. *)
Definition code_evaluates (zr so delta_psi mr : R) (sn : R) (w : npfloat)
  : Prop :=
  calculate_w18 sn zr so delta_psi mr = PyFloat w.

(** * Properties *)

(** ** Deciding on reals *)

Ltac decide_R :=
  repeat match goal with
    | |- context [Rlt_dec ?a ?b] => destruct (Rlt_dec a b); try lra
    | |- context [Req_dec_T ?a ?b] => destruct (Req_dec_T a b); try lra
    end.

Lemma Rltb_true (a b : R) : Rltb a b = true <-> a < b.
Proof.
  unfold Rltb. destruct (Rlt_dec a b); split; intros; try easy.
Qed.

Lemma Rltb_false (a b : R) : Rltb a b = false <-> b <= a.
Proof.
  unfold Rltb. destruct (Rlt_dec a b); split; intros; try easy; lra.
Qed.

Lemma np_log10_pos (x : R) : 0 < x -> np_log10 x = Fin (log10 x).
Proof. intros Hx. unfold np_log10. now decide_R. Qed.

Lemma np_log10_zero : np_log10 0 = NInf.
Proof. unfold np_log10. now decide_R. Qed.

Lemma np_log10_neg (x : R) : x < 0 -> np_log10 x = NaN.
Proof. intros Hx. unfold np_log10. now decide_R. Qed.

Lemma py_pow_pos (x y : R) : 0 < x -> py_pow x y = PowFloat (Rpower x y).
Proof. intros Hx. unfold py_pow. now decide_R. Qed.

Lemma np_power_pos (x y : R) : 0 < x -> np_power x y = Fin (Rpower x y).
Proof. intros Hx. unfold np_power. now decide_R. Qed.

Lemma Rpower_pos (x y : R) : 0 < Rpower x y.
Proof. apply exp_pos. Qed.

Lemma py_truediv_nonzero (a b : R) :
  b <> 0 -> py_truediv a b = Return (a / b).
Proof.
  intros Hb. unfold py_truediv. destruct (Req_dec_T b 0); easy.
Qed.

(** The divisor of the third term is positive wherever the power is. *)
Lemma slope_divisor_pos (p : R) : 0 < p -> 0 < 0.40 + 1094 / p.
Proof.
  intros Hp. assert (0 < 1094 / p) by (apply Rdiv_lt_0_compat; lra). lra.
Qed.

Lemma slope_term_eq (P : R) :
  0 < P -> / (0.40 + 1094 / P) = P / (0.40 * P + 1094).
Proof.
  intros HP. replace 0.40 with (2 / 5) by lra. field. split; lra.
Qed.

(** ** The design equation *)

(** Above [sn = -1] the evaluation never leaves the floats, whatever the
    other arguments are. *)
Lemma calculate_w18_float (sn zr so delta_psi mr : R) :
  -1 < sn ->
  calculate_w18 sn zr so delta_psi mr =
  PyFloat
    (np_pow10
       (f_add
          (f_add
             (f_add (Fin (zr * so))
                    (f_sub (f_mul (Fin 9.36) (Fin (log10 (sn + 1))))
                           (Fin 0.20)))
             (f_div (np_log10 (delta_psi / (4.2 - 1.5)))
                    (Fin (0.40 + 1094 / Rpower (sn + 1) 5.19))))
          (f_sub (f_mul (Fin 2.32) (np_log10 mr)) (Fin 8.07)))).
Proof.
  intros Hsn. unfold calculate_w18.
  rewrite py_pow_pos by lra.
  rewrite py_truediv_nonzero
    by (apply Rgt_not_eq, Rlt_gt, Rpower_pos).
  rewrite np_log10_pos by lra. reflexivity.
Qed.

Lemma calculate_w18_in_domain (sn zr so delta_psi mr : R) :
  -1 < sn -> 0 < delta_psi -> 0 < mr ->
  calculate_w18 sn zr so delta_psi mr =
  PyFloat (Fin (aashto_1993_w18 sn zr so delta_psi mr)).
Proof.
  intros Hsn Hd Hm. rewrite calculate_w18_float by assumption.
  assert (Hq : 0 < delta_psi / (4.2 - 1.5))
    by (apply Rdiv_lt_0_compat; lra).
  rewrite !np_log10_pos by assumption.
  pose proof (slope_divisor_pos _ (Rpower_pos (sn + 1) 5.19)) as Hden.
  cbn [f_mul f_sub f_add f_opp f_div np_pow10].
  destruct (Req_dec_T (0.40 + 1094 / Rpower (sn + 1) 5.19) 0) as [E|_];
    [lra|].
  unfold aashto_1993_w18, aashto_1993_log_w18.
  cbn [f_add np_pow10].
  replace (4.2 - 1.5) with 2.7 by lra.
  do 3 f_equal. ring.
Qed.

(** C2: inside the domain [sn > -1], [delta_psi > 0], [mr > 0] the
    evaluator returns exactly the AASHTO 1993 value
    [10 ^ (zr*so + 9.36*log10(sn+1) - 0.20
            + log10(delta_psi/2.7) / (0.40 + 1094/(sn+1)^5.19)
            + 2.32*log10(mr) - 8.07)], in raw axle loads. *)
Theorem calculate_w18_is_aashto_1993 (sn zr so delta_psi mr : R) :
  -1 < sn -> 0 < delta_psi -> 0 < mr ->
  calculate_w18 sn zr so delta_psi mr =
  PyFloat (Fin (Rpower 10
    (zr * so + 9.36 * log10 (sn + 1) - 0.20
     + log10 (delta_psi / 2.7) / (0.40 + 1094 / Rpower (sn + 1) 5.19)
     + 2.32 * log10 mr - 8.07))).
Proof.
  intros Hsn Hd Hm.
  now rewrite calculate_w18_in_domain.
Qed.

Lemma calculate_w18_is_aashto_1993_witness :
  calculate_w18 3 (-1.645) 0.45 2 7500 =
  PyFloat (Fin (Rpower 10
    (-1.645 * 0.45 + 9.36 * log10 (3 + 1) - 0.20
     + log10 (2 / 2.7) / (0.40 + 1094 / Rpower (3 + 1) 5.19)
     + 2.32 * log10 7500 - 8.07))).
Proof.
  apply (calculate_w18_is_aashto_1993 3 (-1.645) 0.45 2 7500); lra.
Defined.

(** C10: the two scripts embed the same equation.  Inside the domain the
    residual of [SN.py] is the value of [SN1.py]'s evaluator minus the
    target converted from millions. *)
Theorem aashto_equation_is_residual (sn w18 zr so delta_psi mr : R) :
  -1 < sn -> 0 < delta_psi -> 0 < mr ->
  exists w18_calc : R,
    calculate_w18 sn zr so delta_psi mr = PyFloat (Fin w18_calc) /\
    aashto_equation sn w18 zr so delta_psi mr
    = Fin (w18_calc - w18 * 1000000).
Proof.
  intros Hsn Hd Hm.
  exists (aashto_1993_w18 sn zr so delta_psi mr). split.
  - now apply calculate_w18_in_domain.
  - unfold aashto_equation.
    assert (Hq : 0 < delta_psi / (4.2 - 1.5))
      by (apply Rdiv_lt_0_compat; lra).
    rewrite !np_log10_pos by (assumption || lra).
    rewrite np_power_pos by lra.
    pose proof (Rpower_pos (sn + 1) 5.19) as Hp.
    pose proof (slope_divisor_pos _ Hp) as Hden.
    cbn [f_mul f_sub f_add f_opp f_div np_pow10].
    destruct (Req_dec_T (Rpower (sn + 1) 5.19) 0) as [E|_]; [lra|].
    cbn [f_add f_div].
    destruct (Req_dec_T (0.40 + 1094 / Rpower (sn + 1) 5.19) 0) as [E|_];
      [lra|].
    cbn [f_add np_pow10 f_opp].
    unfold aashto_1993_w18, aashto_1993_log_w18.
    replace (4.2 - 1.5) with 2.7 by lra.
    replace (1e6) with 1000000 by lra.
    cbn [f_sub f_add f_opp]. unfold Rminus. do 3 f_equal. ring.
Qed.

Lemma aashto_equation_is_residual_witness :
  exists w18_calc : R,
    calculate_w18 3 (-1.645) 0.45 2 7500 = PyFloat (Fin w18_calc) /\
    aashto_equation 3 5 (-1.645) 0.45 2 7500
    = Fin (w18_calc - 5 * 1000000).
Proof.
  apply (aashto_equation_is_residual 3 5 (-1.645) 0.45 2 7500); lra.
Defined.

(** Outside the domain numpy answers with a special value and a warning;
    nothing is raised, so the [except] branch is not taken. *)
Lemma calculate_w18_delta_psi_zero (sn zr so mr : R) :
  -1 < sn -> 0 < mr ->
  calculate_w18 sn zr so 0 mr = PyFloat (Fin 0).
Proof.
  intros Hsn Hm. rewrite calculate_w18_float by assumption.
  replace (0 / (4.2 - 1.5)) with 0 by lra.
  rewrite np_log10_zero, np_log10_pos by assumption.
  pose proof (slope_divisor_pos _ (Rpower_pos (sn + 1) 5.19)) as Hden.
  cbn [f_mul f_sub f_add f_opp f_div np_pow10].
  destruct (Rlt_dec (0.40 + 1094 / Rpower (sn + 1) 5.19) 0); [lra|].
  reflexivity.
Qed.

Lemma calculate_w18_delta_psi_negative (sn zr so delta_psi mr : R) :
  -1 < sn -> delta_psi < 0 ->
  calculate_w18 sn zr so delta_psi mr = PyFloat NaN.
Proof.
  intros Hsn Hd. rewrite calculate_w18_float by assumption.
  assert (Hq : delta_psi / (4.2 - 1.5) < 0).
  { assert (0 < / (4.2 - 1.5)) by (apply Rinv_0_lt_compat; lra).
    unfold Rdiv. nra. }
  rewrite (np_log10_neg _ Hq). reflexivity.
Qed.

(** The [except] branch is entered at [sn = -1], where the power is
    [0.0] and Python's division raises; below [-1] the power is complex
    and so is the result. *)
Lemma calculate_w18_at_minus_one (zr so delta_psi mr : R) :
  calculate_w18 (-1) zr so delta_psi mr = PyNone.
Proof.
  unfold calculate_w18, py_pow, py_truediv.
  destruct (Rlt_dec 0 (-1 + 1)); [lra|].
  destruct (Req_dec_T (-1 + 1) 0); [|lra].
  destruct (Req_dec_T 0 0); [reflexivity|lra].
Qed.

Lemma calculate_w18_below_minus_one (sn zr so delta_psi mr : R) :
  sn < -1 -> calculate_w18 sn zr so delta_psi mr = PyComplexNaN.
Proof.
  intros Hsn. unfold calculate_w18, py_pow.
  destruct (Rlt_dec 0 (sn + 1)); [lra|].
  destruct (Req_dec_T (sn + 1) 0); [lra|reflexivity].
Qed.

Lemma calculate_w18_mr_zero (sn zr so delta_psi : R) :
  -1 < sn -> 0 < delta_psi ->
  calculate_w18 sn zr so delta_psi 0 = PyFloat (Fin 0).
Proof.
  intros Hsn Hd. rewrite calculate_w18_float by assumption.
  assert (Hq : 0 < delta_psi / (4.2 - 1.5))
    by (apply Rdiv_lt_0_compat; lra).
  rewrite np_log10_zero, np_log10_pos by assumption.
  pose proof (slope_divisor_pos _ (Rpower_pos (sn + 1) 5.19)) as Hden.
  cbn [f_mul f_sub f_add f_opp f_div np_pow10 scale_inf].
  destruct (Req_dec_T (0.40 + 1094 / Rpower (sn + 1) 5.19) 0); [lra|].
  unfold scale_inf. destruct (Rlt_dec 0 2.32); [|lra].
  reflexivity.
Qed.

(** C6: at [delta_psi = 0] the evaluator of [SN1.py] returns the float
    [0.0], neither [None] nor an exception, and the residual of [SN.py]
    is minus the target; below zero both give [nan]. *)
Theorem evaluator_silent_outside_domain :
  calculate_w18 7.55 (-1.645) 0.45 0 7500 = PyFloat (Fin 0) /\
  aashto_equation 3 5 (-1.645) 0.45 0 7500 = Fin (- (5 * 1e6)) /\
  calculate_w18 7.55 (-1.645) 0.45 (-0.5) 7500 = PyFloat NaN.
Proof.
  split; [apply calculate_w18_delta_psi_zero; lra|].
  split; [|apply calculate_w18_delta_psi_negative; lra].
  unfold aashto_equation.
  replace (0 / (4.2 - 1.5)) with 0 by lra.
  rewrite np_log10_zero, !np_log10_pos, np_power_pos by lra.
  pose proof (Rpower_pos (3 + 1) 5.19) as Hp.
  pose proof (slope_divisor_pos _ Hp) as Hden.
  cbn [f_mul f_sub f_add f_opp f_div np_pow10].
  destruct (Req_dec_T (Rpower (3 + 1) 5.19) 0) as [E|_]; [lra|].
  cbn [f_add f_div].
  destruct (Rlt_dec (0.40 + 1094 / Rpower (3 + 1) 5.19) 0); [lra|].
  cbn. f_equal. lra.
Qed.

(** ** Reliability resolver *)

Lemma get_zr_tabulated :
  map get_zr [50; 60; 70; 75; 80; 85; 90; 95; 99; 99.9]%Q
  = [0; -0.253; -0.524; -0.674; -0.841; -1.037; -1.282; -1.645;
     -2.327; -3.090]%Q.
Proof. reflexivity. Qed.

(** Every key that the table does not hold gets the default. *)
Lemma get_zr_not_tabulated (reliability : Q) :
  forallb (fun kv => negb (Qeq_bool (fst kv) reliability)) zr_values = true ->
  get_zr reliability = (-1.645)%Q.
Proof.
  unfold get_zr. generalize zr_values as d.
  induction d as [|[k v] d IH]; [reflexivity|].
  cbn [forallb fst dict_get]. intros H.
  apply andb_true_iff in H as [Hk Hd].
  apply negb_true_iff in Hk. rewrite Hk. now apply IH.
Qed.

(** C7: for a reliability that is not tabulated the resolver returns the
    default [-1.645], the deviate of 95 %: at 51 %, at 96 % and at 98.5 %. *)
Theorem get_zr_defaults_silently :
  get_zr 51 = (-1.645)%Q /\
  get_zr 96 = get_zr 95 /\
  get_zr 98.5 = (-1.645)%Q.
Proof. repeat split. Qed.

(** ** Capacity check *)

(** C8: the provided structural number is
    [a1*d1 + a2*d2*m2 + a3*d3*m3], whose surface term carries no
    drainage factor; the design is adequate exactly when it is at least
    the required one; the specification's example evaluates to
    [1.60 + 0.84 + 0.88 = 3.32]. *)
Theorem capacity_check (a1 d1 a2 d2 m2 a3 d3 m3 required_sn : R) :
  sn_provided a1 d1 a2 d2 m2 a3 d3 m3
  = a1 * d1 + a2 * d2 * m2 + a3 * d3 * m3 /\
  (adequate a1 d1 a2 d2 m2 a3 d3 m3 required_sn = true
   <-> sn_provided a1 d1 a2 d2 m2 a3 d3 m3 >= required_sn) /\
  (adequate a1 d1 a2 d2 m2 a3 d3 m3 required_sn = true
   <-> difference a1 d1 a2 d2 m2 a3 d3 m3 required_sn >= 0) /\
  0.40 * 4.0 = 1.60 /\ 0.14 * 6.0 * 1.0 = 0.84 /\ 0.11 * 8.0 * 1.0 = 0.88 /\
  sn_provided 0.40 4.0 0.14 6.0 1.0 0.11 8.0 1.0 = 3.32.
Proof.
  unfold adequate, difference.
  repeat split; try (unfold sn_provided; lra).
  - rewrite negb_true_iff, Rltb_false. lra.
  - rewrite negb_true_iff, Rltb_false. lra.
  - rewrite negb_true_iff, Rltb_false. lra.
  - rewrite negb_true_iff, Rltb_false. lra.
Qed.

(** The expression itself has no guard: off the page, with every
    thickness at zero, its first division raises [ZeroDivisionError]. *)
Lemma contribution_percentages_raises :
  sn_provided 0.40 0 0.14 0 1 0.11 0 1 = 0 /\
  contribution_percentages 0.40 0 0.14 0 1 0.11 0 1
  = Raise ZeroDivisionError.
Proof.
  assert (H : sn_provided 0.40 0 0.14 0 1 0.11 0 1 = 0)
    by (unfold sn_provided; lra).
  split; [exact H|].
  unfold contribution_percentages, py_truediv. rewrite H.
  destruct (Req_dec_T 0 0); [reflexivity | lra].
Qed.





(** ** The state machine is deterministic *)

Section SpecSolverFacts.

Variable evaluates : R -> npfloat -> Prop.
Variables target tolerance : R.
Hypothesis evaluates_functional :
  forall sn w w', evaluates sn w -> evaluates sn w' -> w = w'.

Local Abbreviation step := (bisection_step evaluates target tolerance).
Local Abbreviation steps := (bisection_run evaluates target tolerance).

Lemma bisection_step_deterministic (s s1 s2 : solver_state) :
  step s s1 -> step s s2 -> s1 = s2.
Proof.
  intros H1 H2.
  inversion H1; subst; inversion H2; subst; try reflexivity;
    match goal with
    | Ha : evaluates ?m ?w, Hb : evaluates ?m ?w' |- _ =>
        pose proof (evaluates_functional m w w' Ha Hb); subst
    end; contradiction.
Qed.

Lemma bisection_run_unique (s f1 f2 : solver_state) :
  steps s f1 -> steps s f2 ->
  (forall s', ~ step f1 s') -> (forall s', ~ step f2 s') ->
  f1 = f2.
Proof.
  intros Hr1. revert f2.
  induction Hr1 as [s|s s' f1 Hstep Hr1 IH]; intros f2 Hr2 Hf1 Hf2.
  - destruct Hr2 as [|s s' f2 Hstep _]; [reflexivity|].
    now destruct (Hf1 s').
  - destruct Hr2 as [s|s s'' f2 Hstep' Hr2]; [now destruct (Hf2 s')|].
    rewrite (bisection_step_deterministic s s'' s' Hstep' Hstep) in Hr2.
    now apply IH.
Qed.

Lemma converged_is_final (m : R) (s : solver_state) :
  ~ step (Converged m) s.
Proof. intros H. inversion H. Qed.

Lemma max_iterations_reached_is_final (m : R) (s : solver_state) :
  ~ step (MaxIterationsReached m) s.
Proof. intros H. inversion H. Qed.

End SpecSolverFacts.

Lemma code_evaluates_functional (zr so delta_psi mr sn : R)
  (w w' : npfloat) :
  code_evaluates zr so delta_psi mr sn w ->
  code_evaluates zr so delta_psi mr sn w' -> w = w'.
Proof. unfold code_evaluates. congruence. Qed.

(** ** The bisection loop *)

Section BisectionFacts.

Variables zr so delta_psi mr : R.
Variables target tolerance : R.

Local Abbreviation loop := (bisect zr so delta_psi mr target tolerance).
Local Abbreviation run :=
  (bisection_run (code_evaluates zr so delta_psi mr) target tolerance).

Lemma bisect_S (n : nat) (sn_low sn_high : R) (sn_mid : option R) :
  loop (S n) sn_low sn_high sn_mid =
  match calculate_w18 ((sn_low + sn_high) / 2) zr so delta_psi mr with
  | PyNone => ReturnedNone
  | PyComplexNaN =>
      loop n sn_low ((sn_low + sn_high) / 2)
           (Some ((sn_low + sn_high) / 2))
  | PyFloat w18_calc =>
      if f_ltb (f_abs (f_sub w18_calc (Fin target)))
               (Fin (target * tolerance))
      then ReturnedMid ((sn_low + sn_high) / 2)
      else if f_ltb w18_calc (Fin target)
           then loop n ((sn_low + sn_high) / 2) sn_high
                     (Some ((sn_low + sn_high) / 2))
           else loop n sn_low ((sn_low + sn_high) / 2)
                     (Some ((sn_low + sn_high) / 2))
  end.
Proof. reflexivity. Qed.

(** The loop follows the state machine, and every midpoint it can
    return lies inside the initial bracket (strictly, in exact
    arithmetic). *)
Lemma bisect_refines_run (n : nat) :
  forall (low high : R) (last : option R),
    0.1 <= low -> low < high -> high <= 15 ->
    (forall m, last = Some m -> 0.1 < m < 15) ->
    n <> O \/ last <> None ->
    exists m : R,
      0.1 < m < 15 /\
      ((loop n low high last = ReturnedMid m /\
        run (Iterating low high n last) (Converged m)) \/
       (loop n low high last = Exhausted (Some m) /\
        run (Iterating low high n last) (MaxIterationsReached m))).
Proof.
  induction n as [|n IH]; intros low high last Hlow Hlt Hhigh Hlast Hne.
  - destruct last as [m|]; [|destruct Hne; congruence].
    exists m. split; [now apply Hlast|]. right. split; [reflexivity|].
    eapply run_step; [apply step_exhausted | apply run_done].
  - rewrite bisect_S.
    set (mid := (low + high) / 2).
    assert (Hmid : low < mid < high) by (unfold mid; lra).
    destruct (calculate_w18 mid zr so delta_psi mr) as [|w|] eqn:Hw;
      try (rewrite calculate_w18_float in Hw by lra; discriminate).
    destruct (f_ltb (f_abs (f_sub w (Fin target)))
                    (Fin (target * tolerance))) eqn:Htol.
    + exists mid. split; [lra|]. left. split; [reflexivity|].
      eapply run_step; [|apply run_done].
      now apply step_converged with (w := w).
    + assert (Hnot : ~ within_tolerance target tolerance w)
        by (unfold within_tolerance; congruence).
      destruct (f_ltb w (Fin target)) eqn:Hbelow.
      * destruct (IH mid high (Some mid)) as (m & Hm & Hcases);
          try lra; [intros ? [= <-]; lra | right; discriminate |].
        exists m. split; [exact Hm|].
        destruct Hcases as [[He Hr]|[He Hr]]; [left|right];
          (split; [exact He|]);
          (eapply run_step; [|exact Hr]);
          now apply step_raise_low with (w := w).
      * assert (Hnb : ~ below_target target w)
          by (unfold below_target; congruence).
        destruct (IH low mid (Some mid)) as (m & Hm & Hcases);
          try lra; [intros ? [= <-]; lra | right; discriminate |].
        exists m. split; [exact Hm|].
        destruct Hcases as [[He Hr]|[He Hr]]; [left|right];
          (split; [exact He|]);
          (eapply run_step; [|exact Hr]);
          now apply step_lower_high with (w := w).
Qed.

(** A return from inside the loop happens only on a passed tolerance
    test, at the returned midpoint. *)
Lemma bisect_returned_mid (n : nat) :
  forall (low high : R) (last : option R) (m : R),
    loop n low high last = ReturnedMid m ->
    exists w : R,
      calculate_w18 m zr so delta_psi mr = PyFloat (Fin w) /\
      Rabs (w - target) < target * tolerance.
Proof.
  induction n as [|n IH]; intros low high last m; [discriminate|].
  rewrite bisect_S.
  destruct (calculate_w18 ((low + high) / 2) zr so delta_psi mr)
    as [|w|] eqn:Hw; [discriminate | | apply IH].
  destruct (f_ltb (f_abs (f_sub w (Fin target)))
                  (Fin (target * tolerance))) eqn:Htol.
  - intros [= <-]. destruct w as [r| | |]; try discriminate.
    exists r. split; [exact Hw|].
    cbn in Htol. apply Rltb_true in Htol.
    now replace (r - target) with (r + - target) by ring.
  - destruct (f_ltb w (Fin target)); apply IH.
Qed.

(** While the evaluator stays below the target by more than the
    tolerance, only the lower bound moves and the loop runs out. *)
Lemma bisect_stays_below (high : R) (n : nat) :
  forall (low : R) (last : option R),
    low < high ->
    (forall sn, low < sn < high ->
       exists w : R,
         calculate_w18 sn zr so delta_psi mr = PyFloat (Fin w) /\
         w < target /\ w <= target - target * tolerance) ->
    loop n low high last =
    Exhausted (match n with
               | O => last
               | S _ => Some (high - (high - low) / 2 ^ n)
               end).
Proof.
  induction n as [|n IH]; intros low last Hlt Hbelow; [reflexivity|].
  rewrite bisect_S.
  set (mid := (low + high) / 2).
  assert (Hmid : low < mid < high) by (unfold mid; lra).
  destruct (Hbelow mid Hmid) as (w & -> & Hw & Htol).
  cbn [f_sub f_add f_opp f_abs f_ltb].
  replace (Rltb (Rabs (w + - target)) (target * tolerance)) with false.
  2:{ symmetry. apply Rltb_false.
      rewrite Rabs_left by lra. lra. }
  replace (Rltb w target) with true by (symmetry; now apply Rltb_true).
  rewrite IH; [|lra|intros sn Hsn; apply Hbelow; lra].
  f_equal. destruct n as [|n'].
  - f_equal. unfold mid. simpl. lra.
  - f_equal. unfold mid.
    assert (Hp : 0 < 2 ^ S n') by (apply pow_lt; lra).
    change (2 ^ S (S n')) with (2 * 2 ^ S n').
    field. lra.
Qed.

End BisectionFacts.

(** ** Bounds on logarithms and powers *)

Lemma ln_le_mono (x y : R) : 0 < x -> x <= y -> ln x <= ln y.
Proof.
  intros Hx [Hlt| ->]; [|lra]. left. now apply ln_increasing.
Qed.

Lemma exp_le_mono (x y : R) : x <= y -> exp x <= exp y.
Proof.
  intros [Hlt| ->]; [|lra]. left. now apply exp_increasing.
Qed.

Lemma ln_10_pos : 0 < ln 10.
Proof. rewrite <- ln_1. apply ln_increasing; lra. Qed.

Lemma log10_le_mono (x y : R) : 0 < x -> x <= y -> log10 x <= log10 y.
Proof.
  intros Hx Hxy. unfold log10, Rdiv.
  apply Rmult_le_compat_r; [|now apply ln_le_mono].
  left. apply Rinv_0_lt_compat, ln_10_pos.
Qed.

Lemma log10_pow10 (n : nat) : log10 (10 ^ n) = INR n.
Proof.
  unfold log10. rewrite ln_pow by lra. field.
  apply Rgt_not_eq, ln_10_pos.
Qed.

(** [x ^ q <= 10 ^ p] bounds [log10 x] by [p / q] from above. *)
Lemma log10_le_frac (x : R) (p q : nat) (r : R) :
  0 < x -> q <> O -> r * INR q = INR p ->
  x ^ q <= 10 ^ p -> log10 x <= r.
Proof.
  intros Hx Hq Hr Hpow.
  assert (Hq' : 0 < INR q) by (apply lt_0_INR; lia).
  pose proof ln_10_pos as H10.
  apply ln_le_mono in Hpow; [|now apply pow_lt].
  rewrite !ln_pow in Hpow by lra.
  unfold log10. apply Rmult_le_reg_r with (ln 10); [exact H10|].
  replace (ln x / ln 10 * ln 10) with (ln x) by (field; lra).
  apply Rmult_le_reg_l with (INR q); [exact Hq'|].
  replace (INR q * (r * ln 10)) with (INR p * ln 10)
    by (rewrite <- Hr; ring).
  exact Hpow.
Qed.

(** [10 ^ p <= x ^ q] bounds [log10 x] by [p / q] from below. *)
Lemma log10_ge_frac (x : R) (p q : nat) (r : R) :
  0 < x -> q <> O -> r * INR q = INR p ->
  10 ^ p <= x ^ q -> r <= log10 x.
Proof.
  intros Hx Hq Hr Hpow.
  assert (Hq' : 0 < INR q) by (apply lt_0_INR; lia).
  pose proof ln_10_pos as H10.
  apply ln_le_mono in Hpow; [|apply pow_lt; lra].
  rewrite !ln_pow in Hpow by lra.
  unfold log10. apply Rmult_le_reg_r with (ln 10); [exact H10|].
  replace (ln x / ln 10 * ln 10) with (ln x) by (field; lra).
  apply Rmult_le_reg_l with (INR q); [exact Hq'|].
  replace (INR q * (r * ln 10)) with (INR p * ln 10)
    by (rewrite <- Hr; ring).
  exact Hpow.
Qed.

(** [a ^ p <= b ^ q] bounds [a ** (p / q)] by [b] from above. *)
Lemma Rpower_le_frac (a b : R) (p q : nat) (e : R) :
  0 < a -> 0 < b -> q <> O -> e * INR q = INR p ->
  a ^ p <= b ^ q -> Rpower a e <= b.
Proof.
  intros Ha Hb Hq He Hpow.
  assert (Hq' : 0 < INR q) by (apply lt_0_INR; lia).
  apply ln_le_mono in Hpow; [|now apply pow_lt].
  rewrite !ln_pow in Hpow by lra.
  unfold Rpower. rewrite <- (exp_ln b) by exact Hb.
  apply exp_le_mono.
  apply Rmult_le_reg_l with (INR q); [exact Hq'|].
  replace (INR q * (e * ln a)) with (INR p * ln a)
    by (rewrite <- He; ring).
  exact Hpow.
Qed.

(** [b ^ q <= a ^ p] bounds [a ** (p / q)] by [b] from below. *)
Lemma Rpower_ge_frac (a b : R) (p q : nat) (e : R) :
  0 < a -> 0 < b -> q <> O -> e * INR q = INR p ->
  b ^ q <= a ^ p -> b <= Rpower a e.
Proof.
  intros Ha Hb Hq He Hpow.
  assert (Hq' : 0 < INR q) by (apply lt_0_INR; lia).
  apply ln_le_mono in Hpow; [|now apply pow_lt].
  rewrite !ln_pow in Hpow by lra.
  unfold Rpower. rewrite <- (exp_ln b) at 1 by exact Hb.
  apply exp_le_mono.
  apply Rmult_le_reg_l with (INR q); [exact Hq'|].
  replace (INR q * (e * ln a)) with (INR p * ln a)
    by (rewrite <- He; ring).
  exact Hpow.
Qed.

Ltac INR_lra := rewrite ?INR_IZR_INZ; simpl Z.of_nat; lra.

(** An input with no root in the bracket: target 1000 million, 99 %
    reliability, [So = 0.50], [delta_psi = 2.0], [MR = 1000] psi.  The
    equation stays below [8e8] up to [sn = 15]. *)
Lemma w18_below_target_on_bracket (sn : R) :
  -1 < sn <= 15 ->
  aashto_1993_w18 sn (-2.327) 0.50 2 1000 <= 800000000.
Proof.
  intros Hsn. unfold aashto_1993_w18.
  assert (Hlog : log10 (sn + 1) <= 1.21).
  { apply Rle_trans with (log10 16); [apply log10_le_mono; lra|].
    apply (log10_le_frac 16 121 100); [lra | lia | INR_lra | lra]. }
  assert (Hmr : log10 1000 = 3).
  { replace 1000 with (10 ^ 3) by lra. rewrite log10_pow10. simpl. lra. }
  assert (Hterm3 :
    log10 (2 / 2.7) / (0.40 + 1094 / Rpower (sn + 1) 5.19) <= 0).
  { pose proof (slope_divisor_pos _ (Rpower_pos (sn + 1) 5.19)) as Hd.
    assert (Hc : log10 (2 / 2.7) <= 0).
    { rewrite <- (Rmult_0_l (/ ln 10)). unfold log10, Rdiv at 1.
      apply Rmult_le_compat_r;
        [left; apply Rinv_0_lt_compat, ln_10_pos|].
      rewrite <- ln_1. apply ln_le_mono; lra. }
    apply Rinv_0_lt_compat in Hd. unfold Rdiv at 1. nra. }
  assert (Hexp : aashto_1993_log_w18 sn (-2.327) 0.50 2 1000 <= 8.9).
  { unfold aashto_1993_log_w18. rewrite Hmr. lra. }
  apply Rle_trans with (Rpower 10 8.9);
    [apply Rle_Rpower; [lra | exact Hexp]|].
  assert (Hsplit : Rpower 10 8.9 * Rpower 10 0.1 = 10 ^ 9).
  { rewrite <- Rpower_plus, <- Rpower_pow by lra.
    f_equal. simpl. lra. }
  assert (H : 1.25 <= Rpower 10 0.1)
    by (apply (Rpower_ge_frac 10 1.25 1 10);
        [lra | lra | lia | INR_lra | lra]).
  pose proof (Rpower_pos 10 8.9). nra.
Qed.

(** ** The solver *)

(** With at least one iteration the solver returns a midpoint of the
    bracket as a float, reached by the state machine either as
    [Converged] or as [MaxIterationsReached].  (In exact arithmetic a
    midpoint is strictly inside the bracket.) *)
Lemma solve_for_sn_returns_midpoint
  (w18_target zr so delta_psi mr tolerance : R) (max_iterations : Z) :
  (1 <= max_iterations)%Z ->
  exists m : R,
    0.1 < m < 15 /\
    solve_for_sn w18_target zr so delta_psi mr tolerance max_iterations
    = Return (PyFloat (Fin m)) /\
    (bisection_run (code_evaluates zr so delta_psi mr)
       (w18_target * 1e6) tolerance
       (Iterating 0.1 15.0 (Z.to_nat max_iterations) None) (Converged m)
     \/
     bisection_run (code_evaluates zr so delta_psi mr)
       (w18_target * 1e6) tolerance
       (Iterating 0.1 15.0 (Z.to_nat max_iterations) None)
       (MaxIterationsReached m)).
Proof.
  intros Hmax. unfold solve_for_sn.
  destruct (bisect_refines_run zr so delta_psi mr (w18_target * 1e6)
              tolerance (Z.to_nat max_iterations) 0.1 15.0 None)
    as (m & Hm & [[He Hr]|[He Hr]]);
    try lra; try discriminate; try (left; lia);
    exists m; (split; [exact Hm|]); rewrite He; auto.
Qed.

(** Without an iteration the loop variable is never bound and the final
    [return sn_mid] raises. *)
Lemma solve_for_sn_no_iteration
  (w18_target zr so delta_psi mr tolerance : R) (max_iterations : Z) :
  (max_iterations <= 0)%Z ->
  solve_for_sn w18_target zr so delta_psi mr tolerance max_iterations
  = Raise UnboundLocalError.
Proof.
  intros Hmax. unfold solve_for_sn.
  replace (Z.to_nat max_iterations) with O by lia. reflexivity.
Qed.

(** C1, amended: the solver multiplies the target by 1,000,000, starts
    from the bracket [0.1, 15.0] and follows the bisection state machine
    for at most 100 iterations (midpoint, tolerance test, then the low
    bound or the high bound replaced); what it returns is the bare
    midpoint, a float, in the converged case and in the exhausted case
    alike. *)
Theorem solve_for_sn_follows_bisection (w18_target zr so delta_psi mr : R) :
  exists m : R,
    solve_for_sn_default w18_target zr so delta_psi mr
    = Return (PyFloat (Fin m)) /\
    (bisection_run (code_evaluates zr so delta_psi mr)
       (w18_target * 1e6) 0.01
       (Iterating 0.1 15.0 100 None) (Converged m)
     \/
     bisection_run (code_evaluates zr so delta_psi mr)
       (w18_target * 1e6) 0.01
       (Iterating 0.1 15.0 100 None) (MaxIterationsReached m)).
Proof.
  destruct (solve_for_sn_returns_midpoint
              w18_target zr so delta_psi mr 0.01 100)
    as (m & _ & He & Hrun); [lia|].
  exists m. split; [exact He | exact Hrun].
Qed.

(** The run for the input without a root uses up its 100 iterations. *)
Lemma no_root_run_exhausted :
  bisect (-2.327) 0.50 2 1000 (1000 * 1e6) 0.01 100 0.1 15.0 None
  = Exhausted (Some (15.0 - (15.0 - 0.1) / 2 ^ 100)).
Proof.
  rewrite (bisect_stays_below (-2.327) 0.50 2 1000 (1000 * 1e6) 0.01
             15.0 100 0.1 None); [reflexivity | lra |].
  intros sn Hsn.
  exists (aashto_1993_w18 sn (-2.327) 0.50 2 1000).
  split; [apply calculate_w18_in_domain; lra|].
  pose proof (w18_below_target_on_bracket sn). lra.
Qed.

(** The first midpoint of the bracket, [sn = 7.55], for 95 % reliability,
    [So = 0.45], [delta_psi = 2.0] and [MR = 7500]: the equation gives
    between 242.55 and 247.45 million axle loads, within 1 % of 245
    million. *)
Lemma w18_at_first_midpoint :
  242550000 < aashto_1993_w18 7.55 (-1.645) 0.45 2 7500 < 247450000.
Proof.
  unfold aashto_1993_w18.
  assert (HA : 178 / 191 <= log10 (7.55 + 1) <= 137 / 147).
  { replace (7.55 + 1) with 8.55 by lra. split.
    - apply (log10_ge_frac 8.55 178 191); [lra | lia | INR_lra | lra].
    - apply (log10_le_frac 8.55 137 147); [lra | lia | INR_lra | lra]. }
  assert (HB : 31 / 8 <= log10 7500 <= 748 / 193).
  { split.
    - apply (log10_ge_frac 7500 31 8); [lra | lia | INR_lra | lra].
    - apply (log10_le_frac 7500 748 193); [lra | lia | INR_lra | lra]. }
  assert (HC : - (3 / 23) <= log10 (2 / 2.7) <= - (25 / 192)).
  { replace (2 / 2.7) with (/ 1.35) by lra.
    unfold log10. rewrite ln_Rinv by lra.
    pose proof ln_10_pos as H10.
    replace (- ln 1.35 / ln 10) with (- (ln 1.35 / ln 10)) by (field; lra).
    fold (log10 1.35). split; apply Ropp_le_contravar.
    - apply (log10_le_frac 1.35 3 23); [lra | lia | INR_lra | lra].
    - apply (log10_ge_frac 1.35 25 192); [lra | lia | INR_lra | lra]. }
  assert (HP : 68000 <= Rpower (7.55 + 1) 5.19 <= 69500).
  { replace (7.55 + 1) with 8.55 by lra. split.
    - apply (Rpower_ge_frac 8.55 68000 519 100);
        [lra | lra | lia | INR_lra | lra].
    - apply (Rpower_le_frac 8.55 69500 519 100);
        [lra | lra | lia | INR_lra | lra]. }
  assert (HG : 2.4033 <= / (0.40 + 1094 / Rpower (7.55 + 1) 5.19) <= 2.4054).
  { rewrite slope_term_eq by lra.
    set (P := Rpower (7.55 + 1) 5.19) in *.
    split.
    - apply Rmult_le_reg_r with (0.40 * P + 1094); [lra|].
      replace (P / (0.40 * P + 1094) * (0.40 * P + 1094)) with P
        by (field; lra).
      lra.
    - apply Rmult_le_reg_r with (0.40 * P + 1094); [lra|].
      replace (P / (0.40 * P + 1094) * (0.40 * P + 1094)) with P
        by (field; lra).
      lra. }
  assert (HL : 8 + 77 / 200
               <= aashto_1993_log_w18 7.55 (-1.645) 0.45 2 7500
               <= 8 + 24 / 61).
  { unfold aashto_1993_log_w18.
    set (c := log10 (2 / 2.7)) in *.
    change (c / (0.40 + 1094 / Rpower (7.55 + 1) 5.19))
      with (c * / (0.40 + 1094 / Rpower (7.55 + 1) 5.19)).
    set (g := / (0.40 + 1094 / Rpower (7.55 + 1) 5.19)) in *.
    assert (- (3 / 23) * 2.4054 <= c * g) by nra.
    assert (c * g <= - (25 / 192) * 2.4033) by nra.
    split; lra. }
  assert (Hsplit : forall x, Rpower 10 (8 + x) = 10 ^ 8 * Rpower 10 x).
  { intros x. rewrite Rpower_plus, <- Rpower_pow by lra.
    do 2 f_equal. simpl. lra. }
  assert (Hlo : 2.426 <= Rpower 10 (77 / 200))
    by (apply (Rpower_ge_frac 10 2.426 77 200);
        [lra | lra | lia | INR_lra | lra]).
  assert (Hhi : Rpower 10 (24 / 61) <= 2.4743)
    by (apply (Rpower_le_frac 10 2.4743 24 61);
        [lra | lra | lia | INR_lra | lra]).
  destruct HL as [HL1 HL2].
  apply (Rle_Rpower 10) in HL1; [|lra].
  apply (Rle_Rpower 10) in HL2; [|lra].
  rewrite Hsplit in HL1, HL2.
  split.
  - apply Rlt_le_trans with (10 ^ 8 * 2.426); [lra|].
    apply Rle_trans with (10 ^ 8 * Rpower 10 (77 / 200)); [nra|exact HL1].
  - apply Rle_lt_trans with (10 ^ 8 * 2.4743); [|lra].
    apply Rle_trans with (10 ^ 8 * Rpower 10 (24 / 61)); [exact HL2|nra].
Qed.

(** So the run for a target of 245 million is left at its first
    iteration, through the tolerance test. *)
Lemma first_midpoint_run_converges :
  bisect (-1.645) 0.45 2 7500 (245 * 1e6) 0.01 100 0.1 15.0 None
  = ReturnedMid 7.55.
Proof.
  change 100%nat with (S 99).
  rewrite bisect_S.
  replace ((0.1 + 15.0) / 2) with 7.55 by lra.
  rewrite calculate_w18_in_domain by lra.
  cbn [f_sub f_add f_opp f_abs f_ltb].
  pose proof w18_at_first_midpoint as Hw.
  replace (Rltb _ _) with true; [reflexivity|].
  symmetry. apply Rltb_true. apply Rabs_def1; lra.
Qed.

(** C1 as stated fails: for a target of 1000 million at 99 % reliability,
    [So = 0.50], [delta_psi = 2.0], [MR = 1000] the loop is exhausted, and
    the solver returns the last midpoint as a float, the same kind of
    value as the converged result for a target of 245 million; the
    caller's test accepts the one like the other. *)
Lemma exhausted_result_carries_no_flag :
  bisect (-2.327) 0.50 2 1000 (1000 * 1e6) 0.01 100 0.1 15.0 None
  = Exhausted (Some (15.0 - (15.0 - 0.1) / 2 ^ 100)) /\
  solve_for_sn_default 1000 (-2.327) 0.50 2 1000
  = Return (PyFloat (Fin (15.0 - (15.0 - 0.1) / 2 ^ 100))) /\
  solution_accepted (PyFloat (Fin (15.0 - (15.0 - 0.1) / 2 ^ 100))) = true /\
  bisect (-1.645) 0.45 2 7500 (245 * 1e6) 0.01 100 0.1 15.0 None
  = ReturnedMid 7.55 /\
  solve_for_sn_default 245 (-1.645) 0.45 2 7500
  = Return (PyFloat (Fin 7.55)) /\
  solution_accepted (PyFloat (Fin 7.55)) = true.
Proof.
  split; [exact no_root_run_exhausted|]. split; [|split].
  - unfold solve_for_sn_default, solve_for_sn.
    change (Z.to_nat 100) with 100%nat.
    now rewrite no_root_run_exhausted.
  - assert (H : 0 < 15.0 - (15.0 - 0.1) / 2 ^ 100).
    { assert (0 < / 2 ^ 100) by (apply Rinv_0_lt_compat, pow_lt; lra).
      assert (/ 2 ^ 100 <= / 1)
        by (apply Rinv_le_contravar; [lra|apply pow_R1_Rle; lra]).
      unfold Rdiv. nra. }
    unfold solution_accepted, Reqb.
    destruct (Req_dec_T _ 0); [lra|].
    simpl. now apply Rltb_true.
  - split; [exact first_midpoint_run_converges|]. split.
    + unfold solve_for_sn_default, solve_for_sn.
      change (Z.to_nat 100) with 100%nat.
      now rewrite first_midpoint_run_converges.
    + unfold solution_accepted, Reqb.
      destruct (Req_dec_T 7.55 0); [lra|].
      simpl. apply Rltb_true. lra.
Qed.

(** C3: when the loop is left through the tolerance test, the returned
    structural number evaluates to within the relative tolerance of the
    target (in raw units). *)
Theorem converged_round_trip
  (w18_target zr so delta_psi mr tolerance : R) (max_iterations : Z)
  (sn : R) :
  0 < delta_psi -> 0 < mr ->
  bisect zr so delta_psi mr (w18_target * 1e6) tolerance
         (Z.to_nat max_iterations) 0.1 15.0 None = ReturnedMid sn ->
  solve_for_sn w18_target zr so delta_psi mr tolerance max_iterations
  = Return (PyFloat (Fin sn)) /\
  exists w : R,
    calculate_w18 sn zr so delta_psi mr = PyFloat (Fin w) /\
    Rabs (w - w18_target * 1e6) < w18_target * 1e6 * tolerance.
Proof.
  intros _ _ Hexit. split.
  - unfold solve_for_sn. now rewrite Hexit.
  - eapply bisect_returned_mid. exact Hexit.
Qed.

Lemma converged_round_trip_witness :
  solve_for_sn 245 (-1.645) 0.45 2 7500 0.01 100
  = Return (PyFloat (Fin 7.55)) /\
  exists w : R,
    calculate_w18 7.55 (-1.645) 0.45 2 7500 = PyFloat (Fin w) /\
    Rabs (w - 245 * 1e6) < 245 * 1e6 * 0.01.
Proof.
  apply (converged_round_trip 245 (-1.645) 0.45 2 7500 0.01 100 7.55);
    [lra | lra |].
  change (Z.to_nat 100) with 100%nat.
  exact first_midpoint_run_converges.
Defined.

(** C5 as stated fails: for that input the equation is below the target
    at both ends of the bracket, and the solver returns the last
    midpoint. *)
Lemma no_root_returns_midpoint :
  (exists w_low w_high : R,
     calculate_w18 0.1 (-2.327) 0.50 2 1000 = PyFloat (Fin w_low) /\
     calculate_w18 15.0 (-2.327) 0.50 2 1000 = PyFloat (Fin w_high) /\
     w_low - 1000 * 1e6 < 0 /\ w_high - 1000 * 1e6 < 0) /\
  solve_for_sn_default 1000 (-2.327) 0.50 2 1000
  = Return (PyFloat (Fin (15.0 - (15.0 - 0.1) / 2 ^ 100))).
Proof.
  split.
  - exists (aashto_1993_w18 0.1 (-2.327) 0.50 2 1000),
           (aashto_1993_w18 15.0 (-2.327) 0.50 2 1000).
    rewrite !calculate_w18_in_domain by lra.
    pose proof (w18_below_target_on_bracket 0.1).
    pose proof (w18_below_target_on_bracket 15.0).
    repeat split; lra.
  - unfold solve_for_sn_default, solve_for_sn.
    change (Z.to_nat 100) with 100%nat.
    now rewrite no_root_run_exhausted.
Qed.

(** With [delta_psi = 0] every evaluation is [0.0]; the solver takes it
    for a value below the target and walks to the upper end. *)
Lemma solve_for_sn_delta_psi_zero :
  solve_for_sn_default 5 (-1.645) 0.45 0 7500
  = Return (PyFloat (Fin (15.0 - (15.0 - 0.1) / 2 ^ 100))).
Proof.
  unfold solve_for_sn_default, solve_for_sn.
  change (Z.to_nat 100) with 100%nat.
  rewrite (bisect_stays_below (-1.645) 0.45 0 7500 (5 * 1e6) 0.01
             15.0 100 0.1 None); [reflexivity | lra |].
  intros sn Hsn. exists 0.
  split; [apply calculate_w18_delta_psi_zero; lra | lra].
Qed.

(** C5, amended: the solver makes no check of the bracket; for every
    input, a sign change or not, the default call returns a float
    between 0.1 and 15, a midpoint of the narrowed bracket, and no
    signal that the bracket holds no root. *)
Theorem solve_for_sn_has_no_bracket_check
  (w18_target zr so delta_psi mr : R) :
  exists m : R,
    0.1 <= m <= 15 /\
    solve_for_sn_default w18_target zr so delta_psi mr
    = Return (PyFloat (Fin m)).
Proof.
  destruct (solve_for_sn_returns_midpoint
              w18_target zr so delta_psi mr 0.01 100) as (m & Hm & He & _);
    [lia|].
  exists m. split; [lra | exact He].
Qed.

(** ** Monotonicity of the design equation in the structural number *)

Lemma exp_mul_one_minus_le (z : R) : exp z * (1 - z) <= 1.
Proof.
  pose proof (exp_pos z) as Hp.
  pose proof (exp_ineq1_le (- z)) as H.
  rewrite exp_Ropp in H.
  assert (Hinv : exp z * / exp z = 1) by (field; lra).
  nra.
Qed.

Lemma log_mean_derivative (x : R) :
  derivable_pt_lim (id * (exp + fct_cte 1) - fct_cte 2 * (exp - fct_cte 1))%F
                   x (1 - exp x * (1 - x)).
Proof.
  replace (1 - exp x * (1 - x))
    with ((1 * (exp + fct_cte 1)%F x + id x * (exp x + 0))
          - (0 * (exp - fct_cte 1)%F x + fct_cte 2 x * (exp x - 0)))
    by (unfold plus_fct, minus_fct, fct_cte, id; ring).
  apply derivable_pt_lim_minus.
  - apply derivable_pt_lim_mult; [apply derivable_pt_lim_id|].
    apply derivable_pt_lim_plus;
      [apply derivable_pt_lim_exp | apply derivable_pt_lim_const].
  - apply derivable_pt_lim_mult; [apply derivable_pt_lim_const|].
    apply derivable_pt_lim_minus;
      [apply derivable_pt_lim_exp | apply derivable_pt_lim_const].
Qed.

(** [tanh (z/2) <= z/2] in exponential form, by the sign of the
    derivative above. *)
Lemma exp_log_mean (z : R) : 0 <= z -> 2 * (exp z - 1) <= z * (exp z + 1).
Proof.
  intros Hz.
  set (h := (id * (exp + fct_cte 1) - fct_cte 2 * (exp - fct_cte 1))%F).
  assert (pr : derivable h).
  { intros x. exists (1 - exp x * (1 - x)). apply log_mean_derivative. }
  assert (Hinc : increasing h).
  { apply (nonneg_derivative_1 h pr). intros x.
    rewrite (derive_pt_eq_0 h x _ (pr x) (log_mean_derivative x)).
    pose proof (exp_mul_one_minus_le x). lra. }
  specialize (Hinc 0 z Hz).
  unfold h, mult_fct, plus_fct, minus_fct, fct_cte, id in Hinc.
  rewrite exp_0 in Hinc. lra.
Qed.

(** The third term of the equation is [log10 (delta_psi / 2.7)] times
    [1 / (0.40 + 1094 / P)], where [P = (sn + 1) ** 5.19].  That factor
    grows with [P], by at most [0.625] per unit of [ln P]. *)
Lemma slope_gap_algebra (u s : R) :
  0 < u -> 1 <= s ->
  1094 * (u * s ^ 2 - u) * (s + 1)
  <= (s - 1) * ((u + 1094) * (u * s ^ 2 + 1094)).
Proof.
  intros Hu Hs.
  assert (H : 0 <= (s - 1) * (u * s - 1094) ^ 2)
    by (apply Rmult_le_pos; [lra | apply pow2_ge_0]).
  lra.
Qed.

Lemma slope_term_gap (P1 P2 : R) :
  0 < P1 -> P1 <= P2 ->
  / (0.40 + 1094 / P2) - / (0.40 + 1094 / P1)
  <= 0.625 * (ln P2 - ln P1).
Proof.
  intros H1 H12.
  assert (H2 : 0 < P2) by lra.
  set (z := (ln P2 - ln P1) / 2).
  assert (Hz : 0 <= z)
    by (pose proof (ln_le_mono P1 P2 H1 H12); unfold z; lra).
  set (s := exp z).
  assert (Hs : 1 <= s)
    by (unfold s; rewrite <- exp_0; now apply exp_le_mono).
  assert (HP2 : P2 = P1 * s ^ 2).
  { transitivity (exp (ln P1 + (z + z))).
    - rewrite <- (exp_ln P2 H2) at 1. f_equal. unfold z. lra.
    - rewrite !exp_plus, (exp_ln P1 H1). fold s. ring. }
  pose proof (exp_log_mean z Hz) as Hmean. fold s in Hmean.
  rewrite !slope_term_eq by assumption.
  replace (0.625 * (ln P2 - ln P1)) with (1.25 * z) by (unfold z; lra).
  apply Rle_trans with (2.5 * ((s - 1) / (s + 1))).
  - apply Rminus_le.
    replace (P2 / (0.40 * P2 + 1094) - P1 / (0.40 * P1 + 1094)
             - 2.5 * ((s - 1) / (s + 1)))
      with ((1094 * (0.40 * P1 * s ^ 2 - 0.40 * P1) * (s + 1)
             - (s - 1) * ((0.40 * P1 + 1094) * (0.40 * P1 * s ^ 2 + 1094)))
            * (2.5 / ((0.40 * P2 + 1094) * (0.40 * P1 + 1094) * (s + 1))))
      by (rewrite HP2; replace 0.40 with (2 / 5) by lra;
          replace 2.5 with (5 / 2) by lra; field; repeat split; nra).
    pose proof (slope_gap_algebra (0.40 * P1) s) as Halg.
    assert (Hden : 0 < 2.5 / ((0.40 * P2 + 1094) * (0.40 * P1 + 1094)
                              * (s + 1))).
    { apply Rdiv_lt_0_compat; [lra|].
      repeat apply Rmult_lt_0_compat; lra. }
    assert (Hnum : 1094 * (0.40 * P1 * s ^ 2 - 0.40 * P1) * (s + 1)
             - (s - 1) * ((0.40 * P1 + 1094) * (0.40 * P1 * s ^ 2 + 1094))
             <= 0) by (apply Rle_minus, Halg; lra).
    nra.
  - assert (Hq : (s - 1) / (s + 1) <= z / 2).
    { apply Rmult_le_reg_r with (s + 1); [lra|].
      replace ((s - 1) / (s + 1) * (s + 1)) with (s - 1) by (field; lra).
      lra. }
    lra.
Qed.

Lemma exp_ge_pow (x : R) (n : nat) :
  0 <= 1 + x -> (1 + x) ^ n <= exp (INR n * x).
Proof.
  intros Hx. induction n as [|n IH].
  - simpl. rewrite Rmult_0_l, exp_0. lra.
  - rewrite S_INR, Rmult_plus_distr_r, Rmult_1_l, exp_plus. simpl.
    pose proof (exp_ineq1_le x) as H1.
    pose proof (pow_le (1 + x) n Hx) as H2.
    pose proof (exp_pos (INR n * x)). nra.
Qed.

Lemma ln_13_5_bound : ln 13.5 <= 2.88.
Proof.
  rewrite <- (ln_exp 2.88). apply ln_le_mono; [lra|].
  replace 2.88 with (INR 16 * 0.18) by INR_lra.
  apply Rle_trans with ((1 + 0.18) ^ 16); [lra|].
  apply exp_ge_pow. lra.
Qed.

(** The exponent of the equation is strictly increasing in [sn] once
    [delta_psi] is at least 0.2. *)
Lemma log_w18_increasing (zr so delta_psi mr s1 s2 : R) :
  0.2 <= delta_psi -> -1 < s1 -> s1 < s2 ->
  aashto_1993_log_w18 s1 zr so delta_psi mr
  < aashto_1993_log_w18 s2 zr so delta_psi mr.
Proof.
  intros Hd H1 H12. unfold aashto_1993_log_w18.
  assert (Hx1 : 0 < s1 + 1) by lra.
  assert (Hx2 : 0 < s2 + 1) by lra.
  pose proof (Rpower_pos (s1 + 1) 5.19) as HP1.
  assert (HP12 : Rpower (s1 + 1) 5.19 <= Rpower (s2 + 1) 5.19)
    by (left; apply Rlt_Rpower_l; lra).
  pose proof (slope_term_gap _ _ HP1 HP12) as Hgap.
  rewrite !ln_Rpower in Hgap.
  assert (Hmono : / (0.40 + 1094 / Rpower (s1 + 1) 5.19)
                  <= / (0.40 + 1094 / Rpower (s2 + 1) 5.19)).
  { apply Rinv_le_contravar.
    - apply slope_divisor_pos. lra.
    - apply Rplus_le_compat_l. unfold Rdiv.
      apply Rmult_le_compat_l; [lra|].
      apply Rinv_le_contravar; assumption. }
  assert (Hdelta : ln (s1 + 1) < ln (s2 + 1))
    by (apply ln_increasing; lra).
  assert (Hk : -2.88 <= ln (delta_psi / 2.7)).
  { apply Rle_trans with (ln (/ 13.5)).
    - rewrite ln_Rinv by lra. pose proof ln_13_5_bound. lra.
    - apply ln_le_mono; [lra|].
      apply Rmult_le_reg_r with 2.7; [lra|].
      replace (delta_psi / 2.7 * 2.7) with delta_psi by (field; lra).
      lra. }
  pose proof ln_10_pos as H10. apply Rinv_0_lt_compat in H10.
  unfold log10, Rdiv in *.
  set (i := / ln 10) in *.
  set (g1 := / (0.40 + 1094 * / Rpower (s1 + 1) 5.19)) in *.
  set (g2 := / (0.40 + 1094 * / Rpower (s2 + 1) 5.19)) in *.
  set (k := ln (delta_psi * / 2.7)) in *.
  set (t1 := ln (s1 + 1)) in *. set (t2 := ln (s2 + 1)) in *.
  assert (Hkg : 0 <= (k + 2.88) * (g2 - g1))
    by (apply Rmult_le_pos; lra).
  assert (Hmain : 0 < 9.36 * (t2 - t1) + k * (g2 - g1)) by lra.
  assert (0 < i * (9.36 * (t2 - t1) + k * (g2 - g1)))
    by (apply Rmult_lt_0_compat; assumption).
  nra.
Qed.

(** For [delta_psi = 0.1] the exponent is larger at [sn = 3] than at
    [sn = 4]. *)
Lemma log_w18_decreases_at_small_delta_psi :
  aashto_1993_log_w18 4 (-1.645) 0.45 0.1 7500
  < aashto_1993_log_w18 3 (-1.645) 0.45 0.1 7500.
Proof.
  unfold aashto_1993_log_w18.
  replace (4 + 1) with 5 by lra. replace (3 + 1) with 4 by lra.
  pose proof ln_10_pos as H10.
  assert (Hc : log10 (0.1 / 2.7) <= -1.431).
  { replace (0.1 / 2.7) with (/ 27) by lra.
    unfold log10. rewrite ln_Rinv by lra.
    pose proof (log10_ge_frac 27 1431 1000 1.431) as H.
    unfold log10 in H.
    replace (- ln 27 / ln 10) with (- (ln 27 / ln 10)) by (field; lra).
    apply Ropp_le_cancel. rewrite Ropp_involutive.
    replace (- -1.431) with 1.431 by lra.
    apply H; [lra | lia | INR_lra | lra]. }
  assert (Hl : log10 5 <= log10 4 + 0.097).
  { replace 5 with (4 * 1.25) by lra.
    unfold log10. rewrite ln_mult by lra.
    pose proof (log10_le_frac 1.25 97 1000 0.097) as H.
    unfold log10 in H.
    replace ((ln 4 + ln 1.25) / ln 10)
      with (ln 4 / ln 10 + ln 1.25 / ln 10) by (field; lra).
    apply Rplus_le_compat_l.
    apply H; [lra | lia | INR_lra | lra]. }
  assert (HP4 : Rpower 4 5.19 <= 1340)
    by (apply (Rpower_le_frac 4 1340 519 100);
        [lra | lra | lia | INR_lra | lra]).
  assert (HP5 : 4200 <= Rpower 5 5.19)
    by (apply (Rpower_ge_frac 5 4200 519 100);
        [lra | lra | lia | INR_lra | lra]).
  pose proof (Rpower_pos 4 5.19) as Hp4.
  assert (Hg4 : / (0.40 + 1094 / Rpower 4 5.19) <= 0.8222).
  { rewrite slope_term_eq by assumption.
    apply Rmult_le_reg_r with (0.40 * Rpower 4 5.19 + 1094); [lra|].
    replace (Rpower 4 5.19 / (0.40 * Rpower 4 5.19 + 1094)
             * (0.40 * Rpower 4 5.19 + 1094))
      with (Rpower 4 5.19) by (field; lra).
    lra. }
  assert (Hg5 : 1.5139 <= / (0.40 + 1094 / Rpower 5 5.19)).
  { rewrite slope_term_eq by lra.
    apply Rmult_le_reg_r with (0.40 * Rpower 5 5.19 + 1094); [lra|].
    replace (Rpower 5 5.19 / (0.40 * Rpower 5 5.19 + 1094)
             * (0.40 * Rpower 5 5.19 + 1094))
      with (Rpower 5 5.19) by (field; lra).
    lra. }
  set (c := log10 (0.1 / 2.7)) in *.
  set (g4 := / (0.40 + 1094 / Rpower 4 5.19)) in *.
  set (g5 := / (0.40 + 1094 / Rpower 5 5.19)) in *.
  change (c / (0.40 + 1094 / Rpower 5 5.19)) with (c * g5).
  change (c / (0.40 + 1094 / Rpower 4 5.19)) with (c * g4).
  assert (Hprod : c * (g5 - g4) <= -1.431 * 0.6917) by nra.
  lra.
Qed.

(** C4 as stated fails: with [delta_psi = 0.1] (for instance 3.0 down to
    2.9) the evaluator gives more traffic at [sn = 3] than at [sn = 4]. *)
Lemma w18_not_increasing_at_small_delta_psi :
  exists w3 w4 : R,
    calculate_w18 3 (-1.645) 0.45 0.1 7500 = PyFloat (Fin w3) /\
    calculate_w18 4 (-1.645) 0.45 0.1 7500 = PyFloat (Fin w4) /\
    0.1 <= 3 < 4 /\ 4 <= 15.0 /\
    w4 < w3.
Proof.
  exists (aashto_1993_w18 3 (-1.645) 0.45 0.1 7500),
         (aashto_1993_w18 4 (-1.645) 0.45 0.1 7500).
  rewrite !calculate_w18_in_domain by lra.
  repeat split; try lra.
  apply Rpower_lt; [lra|].
  exact log_w18_decreases_at_small_delta_psi.
Qed.

(** C4, amended: for [delta_psi >= 0.2] and [mr > 0] the evaluator, and
    with it [f(SN) = evaluate(SN) - target], is strictly increasing in
    [SN] over [0.1, 15.0]. *)
Theorem w18_increasing_in_sn (zr so delta_psi mr target s1 s2 : R) :
  0.2 <= delta_psi -> 0 < mr ->
  0.1 <= s1 -> s1 < s2 -> s2 <= 15.0 ->
  exists w1 w2 : R,
    calculate_w18 s1 zr so delta_psi mr = PyFloat (Fin w1) /\
    calculate_w18 s2 zr so delta_psi mr = PyFloat (Fin w2) /\
    w1 < w2 /\ w1 - target < w2 - target.
Proof.
  intros Hd Hm H1 H12 H2.
  exists (aashto_1993_w18 s1 zr so delta_psi mr),
         (aashto_1993_w18 s2 zr so delta_psi mr).
  rewrite !calculate_w18_in_domain by lra.
  assert (Hlt : aashto_1993_w18 s1 zr so delta_psi mr
                < aashto_1993_w18 s2 zr so delta_psi mr).
  { apply Rpower_lt; [lra|].
    apply log_w18_increasing; lra. }
  repeat split; lra.
Qed.

Lemma w18_increasing_in_sn_witness :
  exists w1 w2 : R,
    calculate_w18 3 (-1.645) 0.45 2 7500 = PyFloat (Fin w1) /\
    calculate_w18 4 (-1.645) 0.45 2 7500 = PyFloat (Fin w2) /\
    w1 < w2 /\ w1 - 5 * 1e6 < w2 - 5 * 1e6.
Proof.
  apply (w18_increasing_in_sn (-1.645) 0.45 2 7500 (5 * 1e6) 3 4); lra.
Defined.

(** * Further properties of the code *)

(** ** Convergence of the bisection *)

Lemma ln_le_minus_one (y : R) : 0 < y -> ln y <= y - 1.
Proof.
  intros Hy. pose proof (exp_ineq1_le (ln y)) as H.
  rewrite exp_ln in H by exact Hy. lra.
Qed.

(** Over the bracket the exponent of the equation grows by at most
    [11.46 / ln 10] per unit of [sn], for [delta_psi] between 0.2 and 5. *)
Lemma log_w18_gap_upper (zr so delta_psi mr s1 s2 : R) :
  0.2 <= delta_psi -> delta_psi <= 5 -> 0.1 <= s1 -> s1 <= s2 ->
  (aashto_1993_log_w18 s2 zr so delta_psi mr
   - aashto_1993_log_w18 s1 zr so delta_psi mr) * ln 10
  <= 11.46 * (s2 - s1).
Proof.
  intros Hd Hd5 H1 H12. unfold aashto_1993_log_w18.
  assert (Hx1 : 0 < s1 + 1) by lra.
  assert (Hx2 : 0 < s2 + 1) by lra.
  pose proof (Rpower_pos (s1 + 1) 5.19) as HP1.
  assert (HP12 : Rpower (s1 + 1) 5.19 <= Rpower (s2 + 1) 5.19)
    by (apply Rle_Rpower_l; lra).
  pose proof (slope_term_gap _ _ HP1 HP12) as Hgap.
  rewrite !ln_Rpower in Hgap.
  assert (Hmono : / (0.40 + 1094 / Rpower (s1 + 1) 5.19)
                  <= / (0.40 + 1094 / Rpower (s2 + 1) 5.19)).
  { apply Rinv_le_contravar.
    - apply slope_divisor_pos. lra.
    - apply Rplus_le_compat_l. unfold Rdiv.
      apply Rmult_le_compat_l; [lra|].
      apply Rinv_le_contravar; assumption. }
  assert (Hdelta : ln (s2 + 1) - ln (s1 + 1) <= (s2 - s1) / 1.1).
  { assert (Hq : 0 < (s2 + 1) / (s1 + 1))
      by (apply Rdiv_lt_0_compat; lra).
    replace (s2 + 1) with ((s1 + 1) * ((s2 + 1) / (s1 + 1))) at 1
      by (field; lra).
    rewrite ln_mult by assumption.
    pose proof (ln_le_minus_one _ Hq) as Hln.
    assert (Hr : (s2 + 1) / (s1 + 1) - 1 <= (s2 - s1) / 1.1).
    { replace ((s2 + 1) / (s1 + 1) - 1) with ((s2 - s1) * / (s1 + 1))
        by (field; lra).
      unfold Rdiv. apply Rmult_le_compat_l; [lra|].
      apply Rinv_le_contravar; lra. }
    lra. }
  assert (Hdelta0 : 0 <= ln (s2 + 1) - ln (s1 + 1))
    by (pose proof (ln_le_mono (s1 + 1) (s2 + 1) Hx1); lra).
  assert (Hk : ln (delta_psi / 2.7) <= 1).
  { apply Rle_trans with (ln 2).
    - apply ln_le_mono; [apply Rdiv_lt_0_compat; lra|].
      apply Rmult_le_reg_r with 2.7; [lra|].
      replace (delta_psi / 2.7 * 2.7) with delta_psi by (field; lra).
      lra.
    - pose proof (ln_le_minus_one 2). lra. }
  pose proof ln_10_pos as H10.
  unfold log10.
  set (g1 := / (0.40 + 1094 / Rpower (s1 + 1) 5.19)) in *.
  set (g2 := / (0.40 + 1094 / Rpower (s2 + 1) 5.19)) in *.
  set (k := ln (delta_psi / 2.7)) in *.
  set (t1 := ln (s1 + 1)) in *. set (t2 := ln (s2 + 1)) in *.
  change (k / ln 10 / (0.40 + 1094 / Rpower (s2 + 1) 5.19))
    with (k / ln 10 * g2).
  change (k / ln 10 / (0.40 + 1094 / Rpower (s1 + 1) 5.19))
    with (k / ln 10 * g1).
  replace ((zr * so + 9.36 * (t2 / ln 10) - 0.20 + k / ln 10 * g2
            + 2.32 * (ln mr / ln 10) - 8.07
            - (zr * so + 9.36 * (t1 / ln 10) - 0.20 + k / ln 10 * g1
               + 2.32 * (ln mr / ln 10) - 8.07)) * ln 10)
    with (9.36 * (t2 - t1) + k * (g2 - g1)) by (field; lra).
  assert (Hkg : 0 <= (1 - k) * (g2 - g1))
    by (apply Rmult_le_pos; lra).
  lra.
Qed.

(** Two points of the bracket at most 0.00086 apart differ by less than
    1 % in predicted traffic. *)
Lemma w18_ratio_bound (zr so delta_psi mr s1 s2 : R) :
  0.2 <= delta_psi -> delta_psi <= 5 -> 0.1 <= s1 -> s1 <= s2 ->
  s2 - s1 <= 0.00086 ->
  aashto_1993_w18 s2 zr so delta_psi mr
  <= 1.00996 * aashto_1993_w18 s1 zr so delta_psi mr.
Proof.
  intros Hd Hd5 H1 H12 Hw.
  pose proof (log_w18_gap_upper zr so delta_psi mr s1 s2 Hd Hd5 H1 H12)
    as Hgap.
  unfold aashto_1993_w18, Rpower.
  set (L1 := aashto_1993_log_w18 s1 zr so delta_psi mr) in *.
  set (L2 := aashto_1993_log_w18 s2 zr so delta_psi mr) in *.
  replace (L2 * ln 10) with (L1 * ln 10 + (L2 - L1) * ln 10) by ring.
  rewrite exp_plus.
  pose proof (exp_pos (L1 * ln 10)) as Hpos.
  assert (He : exp ((L2 - L1) * ln 10) <= 1.00996).
  { apply Rle_trans with (exp 0.0098556); [apply exp_le_mono; lra|].
    pose proof (exp_mul_one_minus_le 0.0098556). lra. }
  nra.
Qed.

Section Convergence.

Variables zr so delta_psi mr : R.
Variables target tolerance : R.
Hypothesis delta_psi_low : 0.2 <= delta_psi.
Hypothesis delta_psi_high : delta_psi <= 5.
Hypothesis mr_pos : 0 < mr.
Hypothesis tolerance_low : 0.01 <= tolerance.

Local Abbreviation W := (fun sn => aashto_1993_w18 sn zr so delta_psi mr).

(** A bracket around the target that [k] halvings bring below the
    width 0.00172 is left through the tolerance test within [k + 1]
    iterations. *)
Lemma bisect_converges_within (k : nat) :
  forall (n : nat) (low high : R) (last : option R),
    (k < n)%nat ->
    0.1 <= low -> low < high -> high <= 15 ->
    W low < target -> target <= W high ->
    high - low <= 0.00172 * 2 ^ k ->
    exists m : R,
      low < m < high /\
      bisect zr so delta_psi mr target tolerance n low high last
      = ReturnedMid m.
Proof.
  induction k as [|k IH];
    intros n low high last Hn Hlow Hlt Hhigh Hbelow Habove Hwidth;
    (destruct n as [|n]; [lia|]);
    rewrite bisect_S;
    set (mid := (low + high) / 2);
    assert (Hmid : low < mid < high) by (unfold mid; lra);
    rewrite calculate_w18_in_domain by lra;
    cbn [f_sub f_add f_opp f_abs f_ltb];
    pose proof (Rpower_pos 10 (aashto_1993_log_w18 low zr so delta_psi mr))
      as Hpos; fold (aashto_1993_w18 low zr so delta_psi mr) in Hpos;
    destruct (Rltb (Rabs (W mid + - target)) (target * tolerance)) eqn:Htol;
    try (exists mid; split; [exact Hmid | reflexivity]).
  - exfalso. apply Rltb_false in Htol.
    simpl in Hwidth.
    assert (Hup : W high <= 1.00996 * W mid)
      by (apply w18_ratio_bound; unfold mid; lra).
    assert (Hdown : W mid <= 1.00996 * W low)
      by (apply w18_ratio_bound; unfold mid; lra).
    assert (Habs : Rabs (W mid + - target) < target * 0.01)
      by (apply Rabs_def1; lra).
    assert (target * 0.01 <= target * tolerance) by nra.
    lra.
  - destruct (Rltb (W mid) target) eqn:Hcmp.
    + apply Rltb_true in Hcmp.
      destruct (IH n mid high (Some mid)) as (m & Hm & He);
        try lra; [lia | simpl in Hwidth; unfold mid; lra |].
      exists m. split; [lra | exact He].
    + apply Rltb_false in Hcmp.
      destruct (IH n low mid (Some mid)) as (m & Hm & He);
        try lra; [lia | simpl in Hwidth; unfold mid; lra |].
      exists m. split; [lra | exact He].
Qed.

End Convergence.

(** X1: when the equation at the two ends of the bracket encloses the
    target ([evaluate(0.1) < target <= evaluate(15.0)]), for [delta_psi]
    between 0.2 and 5, a tolerance of 1 % or more and 15 iterations or
    more, the solver leaves the loop through the tolerance test: it
    converges, and never reaches the fall-through return. *)
Theorem bisection_converges_when_bracketed
  (w18_target zr so delta_psi mr tolerance : R) (max_iterations : Z)
  (w_low w_high : R) :
  0.2 <= delta_psi -> delta_psi <= 5 -> 0 < mr ->
  0.01 <= tolerance -> (15 <= max_iterations)%Z ->
  calculate_w18 0.1 zr so delta_psi mr = PyFloat (Fin w_low) ->
  calculate_w18 15.0 zr so delta_psi mr = PyFloat (Fin w_high) ->
  w_low < w18_target * 1e6 -> w18_target * 1e6 <= w_high ->
  exists sn : R,
    0.1 < sn < 15 /\
    bisect zr so delta_psi mr (w18_target * 1e6) tolerance
           (Z.to_nat max_iterations) 0.1 15.0 None = ReturnedMid sn /\
    solve_for_sn w18_target zr so delta_psi mr tolerance max_iterations
    = Return (PyFloat (Fin sn)).
Proof.
  intros Hd Hd5 Hm Htol Hmax Hlow Hhigh Hbelow Habove.
  rewrite calculate_w18_in_domain in Hlow, Hhigh by lra.
  injection Hlow as <-. injection Hhigh as <-.
  destruct (bisect_converges_within zr so delta_psi mr (w18_target * 1e6)
              tolerance Hd Hd5 Hm Htol 14 (Z.to_nat max_iterations)
              0.1 15.0 None) as (sn & Hsn & He);
    try lra; [lia|].
  exists sn. split; [lra|]. split; [exact He|].
  unfold solve_for_sn. now rewrite He.
Qed.

(** At the lower end of the bracket the default design (95 %, [So = 0.45],
    [delta_psi = 2.0], [MR = 7500]) carries at most 10 axle loads. *)
Lemma w18_at_lower_end :
  aashto_1993_w18 0.1 (-1.645) 0.45 2 7500 <= 10.
Proof.
  unfold aashto_1993_w18.
  rewrite <- (Rpower_1 10) at 2 by lra.
  apply Rle_Rpower; [lra|].
  unfold aashto_1993_log_w18.
  assert (HA : log10 (0.1 + 1) <= 0.05).
  { replace (0.1 + 1) with 1.1 by lra.
    apply (log10_le_frac 1.1 1 20); [lra | lia | INR_lra | lra]. }
  assert (HB : log10 7500 <= 748 / 193)
    by (apply (log10_le_frac 7500 748 193); [lra | lia | INR_lra | lra]).
  assert (Hterm3 :
    log10 (2 / 2.7) / (0.40 + 1094 / Rpower (0.1 + 1) 5.19) <= 0).
  { pose proof (slope_divisor_pos _ (Rpower_pos (0.1 + 1) 5.19)) as Hd.
    assert (Hc : log10 (2 / 2.7) <= 0).
    { rewrite <- (Rmult_0_l (/ ln 10)). unfold log10, Rdiv at 1.
      apply Rmult_le_compat_r;
        [left; apply Rinv_0_lt_compat, ln_10_pos|].
      rewrite <- ln_1. apply ln_le_mono; lra. }
    apply Rinv_0_lt_compat in Hd. unfold Rdiv at 1. nra. }
  lra.
Qed.

Lemma bisection_converges_when_bracketed_witness :
  exists sn : R,
    0.1 < sn < 15 /\
    bisect (-1.645) 0.45 2 7500 (5 * 1e6) 0.01
           (Z.to_nat 100) 0.1 15.0 None = ReturnedMid sn /\
    solve_for_sn 5 (-1.645) 0.45 2 7500 0.01 100
    = Return (PyFloat (Fin sn)).
Proof.
  apply (bisection_converges_when_bracketed
           5 (-1.645) 0.45 2 7500 0.01 100
           (aashto_1993_w18 0.1 (-1.645) 0.45 2 7500)
           (aashto_1993_w18 15.0 (-1.645) 0.45 2 7500));
    try lra; try lia; try (apply calculate_w18_in_domain; lra).
  - pose proof w18_at_lower_end. lra.
  - pose proof w18_at_first_midpoint as H755.
    assert (Hinc : aashto_1993_w18 7.55 (-1.645) 0.45 2 7500
                   < aashto_1993_w18 15.0 (-1.645) 0.45 2 7500).
    { apply Rpower_lt; [lra|]. apply log_w18_increasing; lra. }
    lra.
Defined.

(** ** Outcomes of the solver *)

(** X2: the solver raises exactly when it is given no iteration
    ([max_iterations <= 0], the unbound [sn_mid]); with one iteration or
    more it returns a float between 0.1 and 15, for every tolerance and
    every input.  [None] is never returned. *)
Theorem solve_for_sn_outcomes
  (w18_target zr so delta_psi mr tolerance : R) (max_iterations : Z) :
  if (max_iterations <=? 0)%Z
  then solve_for_sn w18_target zr so delta_psi mr tolerance max_iterations
       = Raise UnboundLocalError
  else exists m : R,
         0.1 <= m <= 15 /\
         solve_for_sn w18_target zr so delta_psi mr tolerance max_iterations
         = Return (PyFloat (Fin m)).
Proof.
  destruct (Z.leb_spec max_iterations 0) as [Hle|Hgt].
  - now apply solve_for_sn_no_iteration.
  - destruct (solve_for_sn_returns_midpoint
                w18_target zr so delta_psi mr tolerance max_iterations)
      as (m & Hm & He & _); [lia|].
    exists m. split; [lra | exact He].
Qed.

(** X3: the caller's test [if sn_solution and sn_solution > 0] succeeds
    on whatever the default call returns, for every traffic, reliability,
    standard deviation, serviceability pair and modulus: the page's
    failure branch is never taken. *)
Theorem failure_branch_unreachable
  (w18 : R) (reliability : Q) (so pi pt mr : R) :
  exists sn_solution : pyvalue,
    solve_for_sn_default w18 (Q2R (get_zr reliability)) so (pi - pt) mr
    = Return sn_solution /\
    solution_accepted sn_solution = true.
Proof.
  destruct (solve_for_sn_returns_midpoint
              w18 (Q2R (get_zr reliability)) so (pi - pt) mr 0.01 100)
    as (m & Hm & He & _); [lia|].
  exists (PyFloat (Fin m)). split; [exact He|].
  unfold solution_accepted, Reqb.
  destruct (Req_dec_T m 0); [lra|].
  simpl. apply Rltb_true. lra.
Qed.

Section MoreIterations.

Variables zr so delta_psi mr : R.
Variables target tolerance : R.

(** A return from inside the loop does not depend on the iterations that
    were left. *)
Lemma bisect_returned_stable (n : nat) :
  forall (k : nat) (low high : R) (last : option R) (m : R),
    bisect zr so delta_psi mr target tolerance n low high last
    = ReturnedMid m ->
    bisect zr so delta_psi mr target tolerance (n + k) low high last
    = ReturnedMid m.
Proof.
  induction n as [|n IH]; intros k low high last m; [discriminate|].
  change (S n + k)%nat with (S (n + k)). rewrite !bisect_S.
  destruct (calculate_w18 ((low + high) / 2) zr so delta_psi mr)
    as [|w|]; [discriminate | | apply IH].
  destruct (f_ltb (f_abs (f_sub w (Fin target)))
                  (Fin (target * tolerance))); [auto|].
  destruct (f_ltb w (Fin target)); apply IH.
Qed.

End MoreIterations.

(** X4: a converged answer is kept when [max_iterations] is raised. *)
Theorem converged_result_keeps_with_more_iterations
  (w18_target zr so delta_psi mr tolerance : R)
  (max_iterations more_iterations : Z) (sn : R) :
  bisect zr so delta_psi mr (w18_target * 1e6) tolerance
         (Z.to_nat max_iterations) 0.1 15.0 None = ReturnedMid sn ->
  (max_iterations <= more_iterations)%Z ->
  solve_for_sn w18_target zr so delta_psi mr tolerance more_iterations
  = Return (PyFloat (Fin sn)).
Proof.
  intros Hexit Hmore. unfold solve_for_sn.
  replace (Z.to_nat more_iterations)
    with (Z.to_nat max_iterations
          + (Z.to_nat more_iterations - Z.to_nat max_iterations))%nat
    by lia.
  now rewrite (bisect_returned_stable _ _ _ _ _ _ _ _ _ _ _ _ Hexit).
Qed.

Lemma first_midpoint_run_one_iteration :
  bisect (-1.645) 0.45 2 7500 (245 * 1e6) 0.01 1 0.1 15.0 None
  = ReturnedMid 7.55.
Proof.
  rewrite bisect_S.
  replace ((0.1 + 15.0) / 2) with 7.55 by lra.
  rewrite calculate_w18_in_domain by lra.
  cbn [f_sub f_add f_opp f_abs f_ltb].
  pose proof w18_at_first_midpoint as Hw.
  replace (Rltb _ _) with true; [reflexivity|].
  symmetry. apply Rltb_true. apply Rabs_def1; lra.
Qed.

Lemma converged_result_keeps_with_more_iterations_witness :
  solve_for_sn 245 (-1.645) 0.45 2 7500 0.01 100
  = Return (PyFloat (Fin 7.55)).
Proof.
  apply (converged_result_keeps_with_more_iterations
           245 (-1.645) 0.45 2 7500 0.01 1 100 7.55); [|lia].
  change (Z.to_nat 1) with 1%nat.
  exact first_midpoint_run_one_iteration.
Defined.

(** ** The solver outside the design domain *)

Lemma np_pow10_not_below (x : npfloat) (t : R) :
  t <= 0 -> f_ltb (np_pow10 x) (Fin t) = false.
Proof.
  intros Ht. destruct x as [a| | |]; cbn; try reflexivity.
  - apply Rltb_false. pose proof (Rpower_pos 10 a). lra.
  - now apply Rltb_false.
Qed.

Lemma f_abs_not_below (x : npfloat) (t : R) :
  t <= 0 -> f_ltb (f_abs x) (Fin t) = false.
Proof.
  intros Ht. destruct x as [a| | |]; cbn; try reflexivity.
  apply Rltb_false. pose proof (Rabs_pos a). lra.
Qed.

(** While both tests of the loop body fail, only the upper bound moves. *)
Lemma bisect_stays_above
  (zr so delta_psi mr target tolerance low : R) (n : nat) :
  forall (high : R) (last : option R),
    -1 < low -> low < high ->
    (forall sn, low < sn < high ->
       exists w : npfloat,
         calculate_w18 sn zr so delta_psi mr = PyFloat w /\
         f_ltb (f_abs (f_sub w (Fin target))) (Fin (target * tolerance))
         = false /\
         f_ltb w (Fin target) = false) ->
    bisect zr so delta_psi mr target tolerance n low high last =
    Exhausted (match n with
               | O => last
               | S _ => Some (low + (high - low) / 2 ^ n)
               end).
Proof.
  induction n as [|n IH]; intros high last Hlow Hlt Hfail; [reflexivity|].
  rewrite bisect_S.
  set (mid := (low + high) / 2).
  assert (Hmid : low < mid < high) by (unfold mid; lra).
  destruct (Hfail mid Hmid) as (w & -> & -> & ->).
  rewrite IH; [|lra|lra|intros sn Hsn; apply Hfail; lra].
  f_equal. destruct n as [|n'].
  - f_equal. unfold mid. simpl. lra.
  - f_equal. unfold mid.
    assert (Hp : 0 < 2 ^ S n') by (apply pow_lt; lra).
    change (2 ^ S (S n')) with (2 * 2 ^ S n').
    field. lra.
Qed.

(** X5: for a target that is zero or negative (and a tolerance that is
    not negative) no evaluation passes a test, whatever the other
    inputs: the solver halves towards the lower end and returns
    [0.1 + 14.9 / 2 ^ max_iterations]. *)
Theorem nonpositive_target_walks_to_lower_end
  (w18_target zr so delta_psi mr tolerance : R) (max_iterations : Z) :
  w18_target <= 0 -> 0 <= tolerance -> (1 <= max_iterations)%Z ->
  solve_for_sn w18_target zr so delta_psi mr tolerance max_iterations
  = Return (PyFloat
      (Fin (0.1 + (15.0 - 0.1) / 2 ^ Z.to_nat max_iterations))).
Proof.
  intros Ht Htol Hmax. unfold solve_for_sn.
  assert (Htu : w18_target * 1e6 <= 0) by nra.
  assert (Htt : w18_target * 1e6 * tolerance <= 0) by nra.
  rewrite (bisect_stays_above zr so delta_psi mr (w18_target * 1e6)
             tolerance 0.1 (Z.to_nat max_iterations) 15.0 None);
    try lra.
  - destruct (Z.to_nat max_iterations) eqn:E; [lia|reflexivity].
  - intros sn Hsn. rewrite calculate_w18_float by lra.
    eexists. split; [reflexivity|].
    split; [now apply f_abs_not_below | now apply np_pow10_not_below].
Qed.

Lemma nonpositive_target_walks_to_lower_end_witness :
  solve_for_sn 0 (-1.645) 0.45 2 7500 0.01 100
  = Return (PyFloat (Fin (0.1 + (15.0 - 0.1) / 2 ^ Z.to_nat 100))).
Proof.
  apply (nonpositive_target_walks_to_lower_end
           0 (-1.645) 0.45 2 7500 0.01 100); [lra | lra | lia].
Defined.

Lemma f_add_nan_r (x : npfloat) : f_add x NaN = NaN.
Proof. now destruct x. Qed.

Lemma calculate_w18_mr_negative (sn zr so delta_psi mr : R) :
  -1 < sn -> mr < 0 ->
  calculate_w18 sn zr so delta_psi mr = PyFloat NaN.
Proof.
  intros Hsn Hm. rewrite calculate_w18_float by assumption.
  rewrite (np_log10_neg mr Hm).
  cbn [f_mul f_sub f_opp]. now rewrite !f_add_nan_r.
Qed.

(** X6: with a negative [delta_psi] or a negative [mr] every evaluation
    is [nan], every comparison with it is false, and the solver returns
    [0.1 + 14.9 / 2 ^ max_iterations], for every target and tolerance. *)
Theorem nan_evaluation_walks_to_lower_end
  (w18_target zr so delta_psi mr tolerance : R) (max_iterations : Z) :
  delta_psi < 0 \/ mr < 0 -> (1 <= max_iterations)%Z ->
  solve_for_sn w18_target zr so delta_psi mr tolerance max_iterations
  = Return (PyFloat
      (Fin (0.1 + (15.0 - 0.1) / 2 ^ Z.to_nat max_iterations))).
Proof.
  intros Hout Hmax. unfold solve_for_sn.
  rewrite (bisect_stays_above zr so delta_psi mr (w18_target * 1e6)
             tolerance 0.1 (Z.to_nat max_iterations) 15.0 None);
    try lra.
  - destruct (Z.to_nat max_iterations) eqn:E; [lia|reflexivity].
  - intros sn Hsn. exists NaN. split; [|split; reflexivity].
    destruct Hout as [Hd|Hm].
    + apply calculate_w18_delta_psi_negative; lra.
    + apply calculate_w18_mr_negative; lra.
Qed.

Lemma nan_evaluation_walks_to_lower_end_witness :
  solve_for_sn 5 (-1.645) 0.45 (-0.5) 7500 0.01 100
  = Return (PyFloat (Fin (0.1 + (15.0 - 0.1) / 2 ^ Z.to_nat 100))).
Proof.
  apply (nan_evaluation_walks_to_lower_end
           5 (-1.645) 0.45 (-0.5) 7500 0.01 100); [left; lra | lia].
Defined.

Lemma calculate_w18_zero (sn zr so delta_psi mr : R) :
  -1 < sn -> 0 <= delta_psi -> 0 <= mr -> delta_psi = 0 \/ mr = 0 ->
  calculate_w18 sn zr so delta_psi mr = PyFloat (Fin 0).
Proof.
  intros Hsn Hd Hm Hz.
  destruct (Req_dec_T delta_psi 0) as [-> | Hdn].
  - destruct (Req_dec_T mr 0) as [-> | Hmn];
      [|apply calculate_w18_delta_psi_zero; lra].
    rewrite calculate_w18_float by assumption.
    replace (0 / (4.2 - 1.5)) with 0 by lra.
    rewrite np_log10_zero.
    pose proof (slope_divisor_pos _ (Rpower_pos (sn + 1) 5.19)) as Hden.
    cbn [f_mul f_sub f_add f_opp f_div np_pow10 scale_inf].
    destruct (Rlt_dec (0.40 + 1094 / Rpower (sn + 1) 5.19) 0); [lra|].
    unfold scale_inf. destruct (Rlt_dec 0 2.32); [|lra].
    reflexivity.
  - destruct Hz as [Hz|Hz]; [contradiction|]. subst mr.
    apply calculate_w18_mr_zero; lra.
Qed.

(** X7: with [delta_psi = 0] (equal initial and terminal serviceability)
    or [mr = 0] every evaluation is [0.0]; for a positive target and a
    tolerance of at most 1 the solver takes it for a value below the
    target and returns [15 - 14.9 / 2 ^ max_iterations]. *)
Theorem zero_evaluation_walks_to_upper_end
  (w18_target zr so delta_psi mr tolerance : R) (max_iterations : Z) :
  0 <= delta_psi -> 0 <= mr -> delta_psi = 0 \/ mr = 0 ->
  0 < w18_target -> tolerance <= 1 -> (1 <= max_iterations)%Z ->
  solve_for_sn w18_target zr so delta_psi mr tolerance max_iterations
  = Return (PyFloat
      (Fin (15.0 - (15.0 - 0.1) / 2 ^ Z.to_nat max_iterations))).
Proof.
  intros Hd Hm Hz Ht Htol Hmax. unfold solve_for_sn.
  rewrite (bisect_stays_below zr so delta_psi mr (w18_target * 1e6)
             tolerance 15.0 (Z.to_nat max_iterations) 0.1 None);
    try lra.
  - destruct (Z.to_nat max_iterations) eqn:E; [lia|reflexivity].
  - intros sn Hsn. exists 0.
    split; [apply calculate_w18_zero; lra|]. nra.
Qed.

Lemma zero_evaluation_walks_to_upper_end_witness :
  solve_for_sn 5 (-1.645) 0.45 (3.0 - 3.0) 7500 0.01 100
  = Return (PyFloat (Fin (15.0 - (15.0 - 0.1) / 2 ^ Z.to_nat 100))).
Proof.
  apply (zero_evaluation_walks_to_upper_end
           5 (-1.645) 0.45 (3.0 - 3.0) 7500 0.01 100);
    try lra; lia.
Defined.

(** ** The evaluators at the edge of their domain *)

(** For an argument of magnitude at most [1e58] the power under the
    exponent 5.19 stays below [2 ^ 1023], inside the range of binary64. *)
Lemma power_within_binary64 (x : R) :
  0 < x <= 1e58 + 1 -> Rpower x 5.19 < 2 ^ 1023.
Proof.
  intros Hx.
  apply Rle_lt_trans with (10 ^ 307); [|lra].
  apply Rle_trans with (Rpower (10 ^ 59) 5.19);
    [apply Rle_Rpower_l; lra|].
  rewrite <- !Rpower_pow, Rpower_mult by lra.
  apply Rle_Rpower; [lra|]. rewrite !INR_IZR_INZ. simpl Z.of_nat. lra.
Qed.

(** X8: for an [sn] of magnitude at most [1e58], the kind of value that
    [calculate_w18] returns is decided by [sn] alone, whatever the other
    arguments: a complex number below [-1], [None] at [-1] (the division
    by the zero power raises and the bare [except] catches it), a float
    above [-1], where the power stays in the range of binary64. *)
Theorem calculate_w18_result_kind (sn zr so delta_psi mr : R) :
  - 1e58 <= sn -> sn <= 1e58 ->
  (sn < -1 /\ Rpower (- (sn + 1)) 5.19 < 2 ^ 1023 /\
   calculate_w18 sn zr so delta_psi mr = PyComplexNaN) \/
  (sn = -1 /\ calculate_w18 sn zr so delta_psi mr = PyNone) \/
  (-1 < sn /\ Rpower (sn + 1) 5.19 < 2 ^ 1023 /\
   exists w, calculate_w18 sn zr so delta_psi mr = PyFloat w).
Proof.
  intros Hlow Hhigh.
  destruct (Rtotal_order sn (-1)) as [Hlt|[Heq|Hgt]].
  - left. split; [exact Hlt|].
    split; [apply power_within_binary64; lra|].
    now apply calculate_w18_below_minus_one.
  - right. left. split; [exact Heq|]. subst sn.
    apply calculate_w18_at_minus_one.
  - right. right. split; [lra|].
    split; [apply power_within_binary64; lra|].
    rewrite calculate_w18_float by lra. eexists. reflexivity.
Qed.

Lemma calculate_w18_result_kind_witness :
  (3 < -1 /\ Rpower (- (3 + 1)) 5.19 < 2 ^ 1023 /\
   calculate_w18 3 (-1.645) 0.45 2 7500 = PyComplexNaN) \/
  (3 = -1 /\ calculate_w18 3 (-1.645) 0.45 2 7500 = PyNone) \/
  (-1 < 3 /\ Rpower (3 + 1) 5.19 < 2 ^ 1023 /\
   exists w, calculate_w18 3 (-1.645) 0.45 2 7500 = PyFloat w).
Proof.
  apply (calculate_w18_result_kind 3 (-1.645) 0.45 2 7500); lra.
Defined.

(** X9: for [sn] above [-1] and at most [1e58] the residual of [SN.py]
    is the value of [SN1.py]'s evaluator minus the target, for every
    [delta_psi] and [mr], those outside the domain included, where the
    value is [0.0] or [nan]. *)
Theorem variants_agree_above_minus_one (sn w18 zr so delta_psi mr : R) :
  -1 < sn -> sn <= 1e58 ->
  Rpower (sn + 1) 5.19 < 2 ^ 1023 /\
  exists w : npfloat,
    calculate_w18 sn zr so delta_psi mr = PyFloat w /\
    aashto_equation sn w18 zr so delta_psi mr = f_sub w (Fin (w18 * 1e6)).
Proof.
  intros Hsn Hhigh. split; [apply power_within_binary64; lra|].
  rewrite calculate_w18_float by assumption.
  eexists. split; [reflexivity|].
  unfold aashto_equation.
  rewrite np_log10_pos, np_power_pos by lra.
  pose proof (Rpower_pos (sn + 1) 5.19) as Hp.
  cbn [f_div].
  destruct (Req_dec_T (Rpower (sn + 1) 5.19) 0) as [E|_]; [lra|].
  reflexivity.
Qed.

Lemma variants_agree_above_minus_one_witness :
  Rpower (3 + 1) 5.19 < 2 ^ 1023 /\
  exists w : npfloat,
    calculate_w18 3 (-1.645) 0.45 (-0.5) 7500 = PyFloat w /\
    aashto_equation 3 5 (-1.645) 0.45 (-0.5) 7500
    = f_sub w (Fin (5 * 1e6)).
Proof.
  apply (variants_agree_above_minus_one 3 5 (-1.645) 0.45 (-0.5) 7500);
    lra.
Defined.

(** X10: at [sn = -1] the two scripts part: [SN1.py]'s evaluator returns
    [None], while in [SN.py] numpy divides by the zero power without
    raising, the equation evaluates to [0.0] and the residual is minus
    the target. *)
Theorem variants_differ_at_minus_one (w18 zr so delta_psi mr : R) :
  0 < delta_psi -> 0 < mr ->
  calculate_w18 (-1) zr so delta_psi mr = PyNone /\
  aashto_equation (-1) w18 zr so delta_psi mr = Fin (- (w18 * 1e6)).
Proof.
  intros Hd Hm. split; [apply calculate_w18_at_minus_one|].
  unfold aashto_equation.
  replace (-1 + 1) with 0 by lra.
  assert (Hq : 0 < delta_psi / (4.2 - 1.5))
    by (apply Rdiv_lt_0_compat; lra).
  rewrite np_log10_zero, !np_log10_pos by assumption.
  unfold np_power.
  destruct (Rlt_dec 0 0); [lra|].
  destruct (Req_dec_T 0 0); [|lra].
  cbn [f_mul f_sub f_add f_opp f_div scale_inf].
  destruct (Req_dec_T 0 0); [|lra].
  destruct (Rlt_dec 0 1094); [|lra].
  unfold scale_inf.
  destruct (Rlt_dec 0 9.36); [|lra].
  cbn. f_equal. lra.
Qed.

Lemma variants_differ_at_minus_one_witness :
  calculate_w18 (-1) (-1.645) 0.45 2 7500 = PyNone /\
  aashto_equation (-1) 5 (-1.645) 0.45 2 7500 = Fin (- (5 * 1e6)).
Proof.
  apply (variants_differ_at_minus_one 5 (-1.645) 0.45 2 7500); lra.
Defined.

Lemma log10_lt_mono (x y : R) : 0 < x -> x < y -> log10 x < log10 y.
Proof.
  intros Hx Hxy. unfold log10, Rdiv.
  apply Rmult_lt_compat_r; [apply Rinv_0_lt_compat, ln_10_pos|].
  now apply ln_increasing.
Qed.

(** X11: inside the domain the predicted traffic grows strictly with
    the normal deviate [zr] (for a positive [so]), with the
    serviceability drop [delta_psi] and with the subgrade modulus
    [mr]. *)
Theorem w18_increasing_in_design_inputs
  (sn so zr zr' delta_psi delta_psi' mr mr' : R) :
  -1 < sn -> 0 < so ->
  zr < zr' -> 0 < delta_psi -> delta_psi < delta_psi' ->
  0 < mr -> mr < mr' ->
  exists w w_zr w_psi w_mr : R,
    calculate_w18 sn zr so delta_psi mr = PyFloat (Fin w) /\
    calculate_w18 sn zr' so delta_psi mr = PyFloat (Fin w_zr) /\
    calculate_w18 sn zr so delta_psi' mr = PyFloat (Fin w_psi) /\
    calculate_w18 sn zr so delta_psi mr' = PyFloat (Fin w_mr) /\
    w < w_zr /\ w < w_psi /\ w < w_mr.
Proof.
  intros Hsn Hso Hzr Hd Hd' Hm Hm'.
  exists (aashto_1993_w18 sn zr so delta_psi mr),
         (aashto_1993_w18 sn zr' so delta_psi mr),
         (aashto_1993_w18 sn zr so delta_psi' mr),
         (aashto_1993_w18 sn zr so delta_psi mr').
  rewrite !calculate_w18_in_domain by lra.
  repeat split; apply Rpower_lt; try lra; unfold aashto_1993_log_w18.
  - nra.
  - assert (Hlog : log10 (delta_psi / 2.7) < log10 (delta_psi' / 2.7)).
    { apply log10_lt_mono; [apply Rdiv_lt_0_compat; lra|].
      unfold Rdiv. apply Rmult_lt_compat_r; lra. }
    pose proof (slope_divisor_pos _ (Rpower_pos (sn + 1) 5.19)) as Hden.
    apply Rinv_0_lt_compat in Hden.
    unfold Rdiv at 1 3. nra.
  - pose proof (log10_lt_mono mr mr' Hm Hm'). lra.
Qed.

Lemma w18_increasing_in_design_inputs_witness :
  exists w w_zr w_psi w_mr : R,
    calculate_w18 3 (-1.645) 0.45 2 7500 = PyFloat (Fin w) /\
    calculate_w18 3 (-1.282) 0.45 2 7500 = PyFloat (Fin w_zr) /\
    calculate_w18 3 (-1.645) 0.45 2.5 7500 = PyFloat (Fin w_psi) /\
    calculate_w18 3 (-1.645) 0.45 2 10000 = PyFloat (Fin w_mr) /\
    w < w_zr /\ w < w_psi /\ w < w_mr.
Proof.
  apply (w18_increasing_in_design_inputs
           3 0.45 (-1.645) (-1.282) 2 2.5 7500 10000); lra.
Defined.

(** ** The reliability table *)

Lemma dict_get_default_or_stored (d : list (Q * Q)) (key default : Q) :
  dict_get d key default = default \/
  In (dict_get d key default) (map snd d).
Proof.
  induction d as [|[k v] d IH]; [now left|].
  cbn [dict_get map snd]. destruct (Qeq_bool k key).
  - right. now left.
  - destruct IH as [IH|IH]; [now left | right; now right].
Qed.

(** X12: whatever the reliability, the deviate returned lies between
    [-3.090] and [0]: it is never positive. *)
Theorem get_zr_range (reliability : Q) :
  (-3.090 <= get_zr reliability <= 0)%Q.
Proof.
  unfold get_zr.
  pose proof (dict_get_default_or_stored zr_values reliability (-1.645)%Q)
    as H.
  set (z := dict_get zr_values reliability (-1.645)%Q) in *.
  clearbody z. destruct H as [-> | Hin].
  - split; discriminate.
  - cbn in Hin.
    repeat (destruct Hin as [<- | Hin]; [split; discriminate|]).
    contradiction.
Qed.

(** X13: a reliability that is numerically different from each of the
    ten keys is answered with the default [-1.645]. *)
Theorem get_zr_missing_key (reliability : Q) :
  (forall key, In key (map fst zr_values) -> ~ (key == reliability)%Q) ->
  get_zr reliability = (-1.645)%Q.
Proof.
  intros Hmiss. apply get_zr_not_tabulated.
  apply forallb_forall. intros [k v] Hin.
  apply negb_true_iff. cbn [fst].
  destruct (Qeq_bool k reliability) eqn:E; [|reflexivity].
  apply Qeq_bool_eq in E.
  exfalso. apply (Hmiss k); [|exact E].
  change k with (fst (k, v)). now apply in_map.
Qed.

Lemma get_zr_missing_key_witness : get_zr 51 = (-1.645)%Q.
Proof.
  apply (get_zr_missing_key 51).
  intros key Hin. cbn in Hin.
  repeat (destruct Hin as [<- | Hin]; [discriminate|]).
  contradiction.
Defined.

(** ** The layer section *)

(** X14: when the three layer terms are not negative and the provided
    structural number is positive, the breakdown does not raise, each
    percentage lies between 0 and 100, and the three add up to 100. *)
Theorem contribution_percentages_add_up (a1 d1 a2 d2 m2 a3 d3 m3 : R) :
  0 <= a1 * d1 -> 0 <= a2 * d2 * m2 -> 0 <= a3 * d3 * m3 ->
  0 < sn_provided a1 d1 a2 d2 m2 a3 d3 m3 ->
  exists q1 q2 q3 : R,
    contribution_percentages a1 d1 a2 d2 m2 a3 d3 m3
    = Return (q1, q2, q3) /\
    q1 + q2 + q3 = 100 /\
    0 <= q1 <= 100 /\ 0 <= q2 <= 100 /\ 0 <= q3 <= 100.
Proof.
  intros H1 H2 H3 Hp.
  unfold contribution_percentages.
  rewrite !py_truediv_nonzero by lra.
  do 3 eexists. split; [reflexivity|].
  set (p := sn_provided a1 d1 a2 d2 m2 a3 d3 m3) in *.
  assert (Hsum : a1 * d1 + a2 * d2 * m2 + a3 * d3 * m3 = p)
    by reflexivity.
  assert (Hi : 0 < / p) by now apply Rinv_0_lt_compat.
  assert (Hpi : p * / p = 1) by (field; lra).
  unfold Rdiv.
  assert (Hq1 : 0 <= a1 * d1 * / p) by (apply Rmult_le_pos; lra).
  assert (Hq2 : 0 <= a2 * d2 * m2 * / p) by (apply Rmult_le_pos; lra).
  assert (Hq3 : 0 <= a3 * d3 * m3 * / p) by (apply Rmult_le_pos; lra).
  assert (Hall : a1 * d1 * / p + a2 * d2 * m2 * / p + a3 * d3 * m3 * / p = 1)
    by (rewrite <- Hpi, <- Hsum; ring).
  repeat split; lra.
Qed.

Lemma contribution_percentages_add_up_witness :
  exists q1 q2 q3 : R,
    contribution_percentages 0.40 4.0 0.14 6.0 1.0 0.11 8.0 1.0
    = Return (q1, q2, q3) /\
    q1 + q2 + q3 = 100 /\
    0 <= q1 <= 100 /\ 0 <= q2 <= 100 /\ 0 <= q3 <= 100.
Proof.
  apply (contribution_percentages_add_up 0.40 4.0 0.14 6.0 1.0 0.11 8.0 1.0);
    unfold sn_provided; lra.
Defined.

(** X15: with coefficients and drainage factors that are not negative,
    a design that is adequate stays adequate when layers are made
    thicker. *)
Theorem adequate_with_thicker_layers
  (a1 d1 a2 d2 m2 a3 d3 m3 d1' d2' d3' sn_solution : R) :
  0 <= a1 -> 0 <= a2 -> 0 <= m2 -> 0 <= a3 -> 0 <= m3 ->
  d1 <= d1' -> d2 <= d2' -> d3 <= d3' ->
  adequate a1 d1 a2 d2 m2 a3 d3 m3 sn_solution = true ->
  adequate a1 d1' a2 d2' m2 a3 d3' m3 sn_solution = true.
Proof.
  intros Ha1 Ha2 Hm2 Ha3 Hm3 H1 H2 H3.
  unfold adequate. rewrite !negb_true_iff, !Rltb_false.
  unfold sn_provided. intros Hle.
  assert (0 <= a2 * m2) by (apply Rmult_le_pos; lra).
  assert (0 <= a3 * m3) by (apply Rmult_le_pos; lra).
  nra.
Qed.

Lemma adequate_with_thicker_layers_witness :
  adequate 0.40 4.5 0.14 6.0 1.0 0.11 10.0 1.0 3.3 = true.
Proof.
  apply (adequate_with_thicker_layers
           0.40 4.0 0.14 6.0 1.0 0.11 8.0 1.0 4.5 6.0 10.0 3.3);
    try lra.
  unfold adequate. rewrite negb_true_iff, Rltb_false.
  unfold sn_provided. lra.
Defined.

(** X16: inside the ranges of the layer inputs of the page the provided
    structural number lies between 0.2 and 24.72, so the breakdown never
    divides by zero there. *)
Theorem sn_provided_in_widget_ranges (a1 d1 a2 d2 m2 a3 d3 m3 : R) :
  0.20 <= a1 <= 0.50 -> 1.0 <= d1 <= 12.0 ->
  0.05 <= a2 <= 0.40 -> 0.50 <= m2 <= 1.20 -> 0.0 <= d2 <= 24.0 ->
  0.05 <= a3 <= 0.25 -> 0.50 <= m3 <= 1.20 -> 0.0 <= d3 <= 24.0 ->
  0.2 <= sn_provided a1 d1 a2 d2 m2 a3 d3 m3 <= 24.72 /\
  exists q1 q2 q3 : R,
    contribution_percentages a1 d1 a2 d2 m2 a3 d3 m3
    = Return (q1, q2, q3).
Proof.
  intros Ha1 Hd1 Ha2 Hm2 Hd2 Ha3 Hm3 Hd3.
  assert (H1 : 0.2 <= a1 * d1 <= 6) by nra.
  assert (H2a : 0 <= a2 * d2 <= 9.6) by nra.
  assert (H2 : 0 <= a2 * d2 * m2 <= 11.52) by nra.
  assert (H3a : 0 <= a3 * d3 <= 6) by nra.
  assert (H3 : 0 <= a3 * d3 * m3 <= 7.2) by nra.
  assert (Hp : 0.2 <= sn_provided a1 d1 a2 d2 m2 a3 d3 m3 <= 24.72)
    by (unfold sn_provided; lra).
  split; [exact Hp|].
  unfold contribution_percentages.
  rewrite !py_truediv_nonzero by lra.
  do 3 eexists. reflexivity.
Qed.

Lemma sn_provided_in_widget_ranges_witness :
  0.2 <= sn_provided 0.40 4.0 0.14 6.0 1.00 0.11 8.0 1.00 <= 24.72 /\
  exists q1 q2 q3 : R,
    contribution_percentages 0.40 4.0 0.14 6.0 1.00 0.11 8.0 1.00
    = Return (q1, q2, q3).
Proof.
  apply (sn_provided_in_widget_ranges 0.40 4.0 0.14 6.0 1.00 0.11 8.0 1.00);
    lra.
Defined.

(** ** The required structural number grows with the traffic *)

Section TargetOrder.

Variables zr so delta_psi mr : R.
Variable tolerance : R.

Local Abbreviation loop := (bisect zr so delta_psi mr).

(** A value that the loop hands back lies in the bracket it was started
    on (or is the midpoint of an earlier iteration). *)
Lemma bisect_value_in_bracket (target : R) (n : nat) :
  forall (low high : R) (last : option R) (m : R),
    low < high ->
    (forall l, last = Some l -> low <= l <= high) ->
    loop target tolerance n low high last = ReturnedMid m \/
    loop target tolerance n low high last = Exhausted (Some m) ->
    low <= m <= high.
Proof.
  induction n as [|n IH]; intros low high last m Hlt Hlast.
  - intros [H|H]; [discriminate|]. injection H as H. now apply Hlast.
  - rewrite bisect_S.
    set (mid := (low + high) / 2).
    assert (Hmid : low < mid < high) by (unfold mid; lra).
    destruct (calculate_w18 mid zr so delta_psi mr) as [|w|];
      [intros [H|H]; discriminate | |
       intros H; assert (low <= m <= mid); [|lra];
       apply (IH low mid (Some mid)); [lra | | exact H];
       intros l [= <-]; lra].
    destruct (f_ltb (f_abs (f_sub w (Fin target)))
                    (Fin (target * tolerance))).
    + intros [H|H]; [|discriminate]. injection H as <-. lra.
    + destruct (f_ltb w (Fin target)); intros H.
      * assert (mid <= m <= high); [|lra].
        apply (IH mid high (Some mid)); [lra | | exact H].
        intros l [= <-]. lra.
      * assert (low <= m <= mid); [|lra].
        apply (IH low mid (Some mid)); [lra | | exact H].
        intros l [= <-]. lra.
Qed.

(** On the same bracket the run for the smaller of two positive targets
    never ends to the right of the run for the larger. *)
Lemma bisect_monotone_in_target (t1 t2 : R) (n : nat) :
  0 < t1 -> t1 <= t2 ->
  forall (low high : R) (last : option R) (m1 m2 : R),
    -1 < low -> low < high ->
    (forall l, last = Some l -> low <= l <= high) ->
    loop t1 tolerance n low high last = ReturnedMid m1 \/
    loop t1 tolerance n low high last = Exhausted (Some m1) ->
    loop t2 tolerance n low high last = ReturnedMid m2 \/
    loop t2 tolerance n low high last = Exhausted (Some m2) ->
    m1 <= m2.
Proof.
  intros Ht1 Ht12.
  induction n as [|n IH]; intros low high last m1 m2 Hlow Hlt Hlast.
  - intros [H1|H1] [H2|H2]; try discriminate.
    injection H1 as H1. injection H2 as H2. rewrite H1 in H2.
    injection H2 as <-. lra.
  - rewrite !bisect_S.
    set (mid := (low + high) / 2).
    assert (Hmid : low < mid < high) by (unfold mid; lra).
    rewrite calculate_w18_float by lra.
    match goal with
    | |- context [np_pow10 ?x] => set (e := x)
    end.
    assert (Hin1 : forall lo hi mm,
               lo < hi -> lo <= mid <= hi ->
               loop t1 tolerance n lo hi (Some mid) = ReturnedMid mm \/
               loop t1 tolerance n lo hi (Some mid) = Exhausted (Some mm) ->
               lo <= mm <= hi).
    { intros lo hi mm Hlh Hm H.
      apply (bisect_value_in_bracket t1 n lo hi (Some mid));
        [exact Hlh | intros l [= <-]; exact Hm | exact H]. }
    assert (Hin2 : forall lo hi mm,
               lo < hi -> lo <= mid <= hi ->
               loop t2 tolerance n lo hi (Some mid) = ReturnedMid mm \/
               loop t2 tolerance n lo hi (Some mid) = Exhausted (Some mm) ->
               lo <= mm <= hi).
    { intros lo hi mm Hlh Hm H.
      apply (bisect_value_in_bracket t2 n lo hi (Some mid));
        [exact Hlh | intros l [= <-]; exact Hm | exact H]. }
    assert (IHl : forall a b,
               loop t1 tolerance n mid high (Some mid) = ReturnedMid a \/
               loop t1 tolerance n mid high (Some mid) = Exhausted (Some a) ->
               loop t2 tolerance n mid high (Some mid) = ReturnedMid b \/
               loop t2 tolerance n mid high (Some mid) = Exhausted (Some b) ->
               a <= b).
    { intros a b. apply IH; [lra | lra |]. intros l [= <-]. lra. }
    assert (IHr : forall a b,
               loop t1 tolerance n low mid (Some mid) = ReturnedMid a \/
               loop t1 tolerance n low mid (Some mid) = Exhausted (Some a) ->
               loop t2 tolerance n low mid (Some mid) = ReturnedMid b \/
               loop t2 tolerance n low mid (Some mid) = Exhausted (Some b) ->
               a <= b).
    { intros a b. apply IH; [lra | lra |]. intros l [= <-]. lra. }
    destruct (np_pow10 e) as [r| | |] eqn:Hw;
      cbn [f_sub f_add f_opp f_abs f_ltb].
    + (* a finite evaluation *)
      assert (Hr : 0 <= r).
      { destruct e; cbn in Hw; try discriminate; injection Hw as <-;
          [left; apply Rpower_pos | lra]. }
      destruct (Rltb (Rabs (r + - t1)) (t1 * tolerance)) eqn:C1;
      destruct (Rltb (Rabs (r + - t2)) (t2 * tolerance)) eqn:C2;
      destruct (Rltb r t1) eqn:B1; destruct (Rltb r t2) eqn:B2;
      repeat match goal with
        | H : Rltb _ _ = true |- _ => apply Rltb_true in H
        | H : Rltb _ _ = false |- _ => apply Rltb_false in H
        end;
      try (exfalso; lra);
      try (exfalso;
           repeat match goal with
             | H : context [Rabs ?x] |- _ =>
                 let Hx := fresh in
                 destruct (Rcase_abs x) as [Hx|Hx];
                 [rewrite (Rabs_left x Hx) in * |
                  rewrite (Rabs_right x Hx) in *]
             end; nra);
      intros H1 H2;
      try (destruct H1 as [H1|H1]; [injection H1 as <- | discriminate]);
      try (destruct H2 as [H2|H2]; [injection H2 as <- | discriminate]);
      try lra;
      try (now apply (IHl m1 m2));
      try (now apply (IHr m1 m2));
      try (pose proof (Hin2 mid high m2 ltac:(lra) ltac:(lra) H2); lra);
      try (pose proof (Hin1 low mid m1 ltac:(lra) ltac:(lra) H1); lra);
      try (pose proof (Hin1 low mid m1 ltac:(lra) ltac:(lra) H1);
           pose proof (Hin2 mid high m2 ltac:(lra) ltac:(lra) H2); lra).
    + (* inf: both runs lower the upper bound *)
      apply IHr.
    + destruct e; cbn in Hw; discriminate.
    + (* nan: both runs lower the upper bound *)
      apply IHr.
Qed.

End TargetOrder.

(** X17: for positive targets a larger design traffic never gives a
    smaller structural number, the other inputs, the tolerance and the
    iteration count being the same. *)
Theorem solve_for_sn_monotone_in_traffic
  (w18_target w18_target' zr so delta_psi mr tolerance : R)
  (max_iterations : Z) (sn sn' : R) :
  0 < w18_target -> w18_target <= w18_target' ->
  solve_for_sn w18_target zr so delta_psi mr tolerance max_iterations
  = Return (PyFloat (Fin sn)) ->
  solve_for_sn w18_target' zr so delta_psi mr tolerance max_iterations
  = Return (PyFloat (Fin sn')) ->
  sn <= sn'.
Proof.
  intros Ht Htt. unfold solve_for_sn. intros H1 H2.
  apply (bisect_monotone_in_target zr so delta_psi mr tolerance
           (w18_target * 1e6) (w18_target' * 1e6)
           (Z.to_nat max_iterations) ltac:(lra) ltac:(lra)
           0.1 15.0 None sn sn'); try lra; try discriminate.
  - destruct (bisect zr so delta_psi mr (w18_target * 1e6) tolerance
                (Z.to_nat max_iterations) 0.1 15.0 None) as [|m|[m|]];
      try discriminate; injection H1 as <-; auto.
  - destruct (bisect zr so delta_psi mr (w18_target' * 1e6) tolerance
                (Z.to_nat max_iterations) 0.1 15.0 None) as [|m|[m|]];
      try discriminate; injection H2 as <-; auto.
Qed.

(** For the default design the equation stays below [8e11] axle loads
    up to [sn = 15], so a target of a million millions is out of reach. *)
Lemma w18_default_design_bound (sn : R) :
  -1 < sn <= 15 ->
  aashto_1993_w18 sn (-1.645) 0.45 2 7500 <= 800000000000.
Proof.
  intros Hsn. unfold aashto_1993_w18.
  assert (Hlog : log10 (sn + 1) <= 1.21).
  { apply Rle_trans with (log10 16); [apply log10_le_mono; lra|].
    apply (log10_le_frac 16 121 100); [lra | lia | INR_lra | lra]. }
  assert (HB : log10 7500 <= 748 / 193)
    by (apply (log10_le_frac 7500 748 193); [lra | lia | INR_lra | lra]).
  assert (Hterm3 :
    log10 (2 / 2.7) / (0.40 + 1094 / Rpower (sn + 1) 5.19) <= 0).
  { pose proof (slope_divisor_pos _ (Rpower_pos (sn + 1) 5.19)) as Hd.
    assert (Hc : log10 (2 / 2.7) <= 0).
    { rewrite <- (Rmult_0_l (/ ln 10)). unfold log10, Rdiv at 1.
      apply Rmult_le_compat_r;
        [left; apply Rinv_0_lt_compat, ln_10_pos|].
      rewrite <- ln_1. apply ln_le_mono; lra. }
    apply Rinv_0_lt_compat in Hd. unfold Rdiv at 1. nra. }
  assert (Hexp : aashto_1993_log_w18 sn (-1.645) 0.45 2 7500 <= 11.9).
  { unfold aashto_1993_log_w18. lra. }
  apply Rle_trans with (Rpower 10 11.9);
    [apply Rle_Rpower; [lra | exact Hexp]|].
  assert (Hsplit : Rpower 10 11.9 * Rpower 10 0.1 = 10 ^ 12).
  { rewrite <- Rpower_plus, <- Rpower_pow by lra.
    f_equal. simpl. lra. }
  assert (H : 1.25 <= Rpower 10 0.1)
    by (apply (Rpower_ge_frac 10 1.25 1 10);
        [lra | lra | lia | INR_lra | lra]).
  pose proof (Rpower_pos 10 11.9). nra.
Qed.

Lemma out_of_reach_run_exhausted :
  solve_for_sn 1000000 (-1.645) 0.45 2 7500 0.01 100
  = Return (PyFloat (Fin (15.0 - (15.0 - 0.1) / 2 ^ 100))).
Proof.
  unfold solve_for_sn. change (Z.to_nat 100) with 100%nat.
  rewrite (bisect_stays_below (-1.645) 0.45 2 7500 (1000000 * 1e6) 0.01
             15.0 100 0.1 None); [reflexivity | lra |].
  intros sn Hsn.
  exists (aashto_1993_w18 sn (-1.645) 0.45 2 7500).
  split; [apply calculate_w18_in_domain; lra|].
  pose proof (w18_default_design_bound sn). lra.
Qed.

Lemma solve_for_sn_monotone_in_traffic_witness :
  7.55 <= 15.0 - (15.0 - 0.1) / 2 ^ 100.
Proof.
  apply (solve_for_sn_monotone_in_traffic
           245 1000000 (-1.645) 0.45 2 7500 0.01 100); [lra | lra | |].
  - unfold solve_for_sn. change (Z.to_nat 100) with 100%nat.
    now rewrite first_midpoint_run_converges.
  - exact out_of_reach_run_exhausted.
Defined.

(** ** The required structural number falls with the design inputs *)

Lemma w18_le_in_design_inputs
  (sn so zr zr' delta_psi delta_psi' mr mr' : R) :
  -1 < sn -> 0 <= so ->
  zr <= zr' -> 0 < delta_psi -> delta_psi <= delta_psi' ->
  0 < mr -> mr <= mr' ->
  aashto_1993_w18 sn zr so delta_psi mr
  <= aashto_1993_w18 sn zr' so delta_psi' mr'.
Proof.
  intros Hsn Hso Hzr Hd Hd' Hm Hm'.
  apply Rle_Rpower; [lra|]. unfold aashto_1993_log_w18.
  assert (Hlog : log10 (delta_psi / 2.7) <= log10 (delta_psi' / 2.7)).
  { apply log10_le_mono; [apply Rdiv_lt_0_compat; lra|].
    unfold Rdiv. apply Rmult_le_compat_r; lra. }
  pose proof (slope_divisor_pos _ (Rpower_pos (sn + 1) 5.19)) as Hden.
  apply Rinv_0_lt_compat in Hden.
  pose proof (log10_le_mono mr mr' Hm Hm') as Hmr.
  unfold Rdiv at 1 3. nra.
Qed.

Section InputOrder.

Variables zr so delta_psi mr : R.
Variables zr' so' delta_psi' mr' : R.
Variables target tolerance : R.
Hypothesis delta_psi_pos : 0 < delta_psi.
Hypothesis mr_pos : 0 < mr.
Hypothesis delta_psi_pos' : 0 < delta_psi'.
Hypothesis mr_pos' : 0 < mr'.
Hypothesis more_traffic :
  forall sn, -1 < sn ->
    aashto_1993_w18 sn zr so delta_psi mr
    <= aashto_1993_w18 sn zr' so' delta_psi' mr'.

(** On the same bracket and for the same target, the run on the design
    that carries more traffic at every [sn] never ends to the right of
    the other run. *)
Lemma bisect_antitone_in_capacity (n : nat) :
  forall (low high : R) (last : option R) (m m' : R),
    -1 < low -> low < high ->
    (forall l, last = Some l -> low <= l <= high) ->
    bisect zr so delta_psi mr target tolerance n low high last
    = ReturnedMid m \/
    bisect zr so delta_psi mr target tolerance n low high last
    = Exhausted (Some m) ->
    bisect zr' so' delta_psi' mr' target tolerance n low high last
    = ReturnedMid m' \/
    bisect zr' so' delta_psi' mr' target tolerance n low high last
    = Exhausted (Some m') ->
    m' <= m.
Proof.
  induction n as [|n IH]; intros low high last m m' Hlow Hlt Hlast.
  - intros [H1|H1] [H2|H2]; try discriminate.
    injection H1 as H1. injection H2 as H2. rewrite H1 in H2.
    injection H2 as <-. lra.
  - rewrite !bisect_S.
    set (mid := (low + high) / 2).
    assert (Hmid : low < mid < high) by (unfold mid; lra).
    rewrite !calculate_w18_in_domain by lra.
    pose proof (more_traffic mid ltac:(lra)) as Hle.
    set (r := aashto_1993_w18 mid zr so delta_psi mr) in *.
    set (r' := aashto_1993_w18 mid zr' so' delta_psi' mr') in *.
    assert (Hin : forall lo hi mm,
               lo < hi -> lo <= mid <= hi ->
               bisect zr so delta_psi mr target tolerance n lo hi (Some mid)
               = ReturnedMid mm \/
               bisect zr so delta_psi mr target tolerance n lo hi (Some mid)
               = Exhausted (Some mm) ->
               lo <= mm <= hi).
    { intros lo hi mm Hlh Hm H.
      apply (bisect_value_in_bracket zr so delta_psi mr tolerance target
               n lo hi (Some mid));
        [exact Hlh | intros l [= <-]; exact Hm | exact H]. }
    assert (Hin' : forall lo hi mm,
               lo < hi -> lo <= mid <= hi ->
               bisect zr' so' delta_psi' mr' target tolerance n lo hi
                      (Some mid) = ReturnedMid mm \/
               bisect zr' so' delta_psi' mr' target tolerance n lo hi
                      (Some mid) = Exhausted (Some mm) ->
               lo <= mm <= hi).
    { intros lo hi mm Hlh Hm H.
      apply (bisect_value_in_bracket zr' so' delta_psi' mr' tolerance target
               n lo hi (Some mid));
        [exact Hlh | intros l [= <-]; exact Hm | exact H]. }
    assert (IHl : forall a b,
               bisect zr so delta_psi mr target tolerance n mid high
                      (Some mid) = ReturnedMid a \/
               bisect zr so delta_psi mr target tolerance n mid high
                      (Some mid) = Exhausted (Some a) ->
               bisect zr' so' delta_psi' mr' target tolerance n mid high
                      (Some mid) = ReturnedMid b \/
               bisect zr' so' delta_psi' mr' target tolerance n mid high
                      (Some mid) = Exhausted (Some b) ->
               b <= a).
    { intros a b. apply IH; [lra | lra |]. intros l [= <-]. lra. }
    assert (IHr : forall a b,
               bisect zr so delta_psi mr target tolerance n low mid
                      (Some mid) = ReturnedMid a \/
               bisect zr so delta_psi mr target tolerance n low mid
                      (Some mid) = Exhausted (Some a) ->
               bisect zr' so' delta_psi' mr' target tolerance n low mid
                      (Some mid) = ReturnedMid b \/
               bisect zr' so' delta_psi' mr' target tolerance n low mid
                      (Some mid) = Exhausted (Some b) ->
               b <= a).
    { intros a b. apply IH; [lra | lra |]. intros l [= <-]. lra. }
    cbn [f_sub f_add f_opp f_abs f_ltb].
    destruct (Rltb (Rabs (r + - target)) (target * tolerance)) eqn:C1;
    destruct (Rltb (Rabs (r' + - target)) (target * tolerance)) eqn:C2;
    destruct (Rltb r target) eqn:B1; destruct (Rltb r' target) eqn:B2;
    repeat match goal with
      | H : Rltb _ _ = true |- _ => apply Rltb_true in H
      | H : Rltb _ _ = false |- _ => apply Rltb_false in H
      end;
    try (exfalso; lra);
    try (exfalso;
         repeat match goal with
           | H : context [Rabs ?x] |- _ =>
               let Hx := fresh in
               destruct (Rcase_abs x) as [Hx|Hx];
               [rewrite (Rabs_left x Hx) in * |
                rewrite (Rabs_right x Hx) in *]
           end; lra);
    intros H1 H2;
    try (destruct H1 as [H1|H1]; [injection H1 as <- | discriminate]);
    try (destruct H2 as [H2|H2]; [injection H2 as <- | discriminate]);
    try lra;
    try (now apply (IHl m m'));
    try (now apply (IHr m m'));
    try (pose proof (Hin mid high m ltac:(lra) ltac:(lra) H1); lra);
    try (pose proof (Hin' low mid m' ltac:(lra) ltac:(lra) H2); lra);
    try (pose proof (Hin mid high m ltac:(lra) ltac:(lra) H1);
         pose proof (Hin' low mid m' ltac:(lra) ltac:(lra) H2); lra).
Qed.

End InputOrder.

(** X18: a design that is no worse in any input (a normal deviate that
    is not lower, a serviceability drop and a subgrade modulus that are
    not smaller) never needs a larger structural number for the same
    traffic: the solver's result does not grow. *)
Theorem solve_for_sn_antitone_in_design_inputs
  (w18_target so zr zr' delta_psi delta_psi' mr mr' tolerance : R)
  (max_iterations : Z) (sn sn' : R) :
  0 <= so -> zr <= zr' ->
  0 < delta_psi -> delta_psi <= delta_psi' ->
  0 < mr -> mr <= mr' ->
  solve_for_sn w18_target zr so delta_psi mr tolerance max_iterations
  = Return (PyFloat (Fin sn)) ->
  solve_for_sn w18_target zr' so delta_psi' mr' tolerance max_iterations
  = Return (PyFloat (Fin sn')) ->
  sn' <= sn.
Proof.
  intros Hso Hzr Hd Hd' Hm Hm'. unfold solve_for_sn. intros H1 H2.
  apply (bisect_antitone_in_capacity zr so delta_psi mr
           zr' so delta_psi' mr' (w18_target * 1e6) tolerance
           Hd Hm ltac:(lra) ltac:(lra)
           ltac:(intros s Hs; apply w18_le_in_design_inputs; lra)
           (Z.to_nat max_iterations) 0.1 15.0 None sn sn');
    try lra; try discriminate.
  - destruct (bisect zr so delta_psi mr (w18_target * 1e6) tolerance
                (Z.to_nat max_iterations) 0.1 15.0 None) as [|m|[m|]];
      try discriminate; injection H1 as <-; auto.
  - destruct (bisect zr' so delta_psi' mr' (w18_target * 1e6) tolerance
                (Z.to_nat max_iterations) 0.1 15.0 None) as [|m|[m|]];
      try discriminate; injection H2 as <-; auto.
Qed.

(** On a subgrade of [1e8] psi the default design carries a thousand
    million axle loads at every [sn] of the bracket. *)
Lemma w18_stiff_subgrade_bound (sn : R) :
  0 <= sn ->
  1000000000 <= aashto_1993_w18 sn (-1.645) 0.45 2 100000000.
Proof.
  intros Hsn. unfold aashto_1993_w18.
  replace 1000000000 with (10 ^ 9) by lra.
  rewrite <- Rpower_pow by lra.
  apply Rle_Rpower; [lra|].
  replace (INR 9) with 9 by (simpl; lra).
  unfold aashto_1993_log_w18.
  assert (HA : 0 <= log10 (sn + 1)).
  { replace 0 with (log10 1) by (unfold log10; rewrite ln_1; lra).
    apply log10_le_mono; lra. }
  assert (HB : log10 100000000 = 8).
  { replace 100000000 with (10 ^ 8) by lra.
    rewrite log10_pow10. simpl. lra. }
  assert (HC : - (3 / 23) <= log10 (2 / 2.7)).
  { replace (2 / 2.7) with (/ 1.35) by lra.
    unfold log10. rewrite ln_Rinv by lra.
    pose proof ln_10_pos as H10.
    replace (- ln 1.35 / ln 10) with (- (ln 1.35 / ln 10)) by (field; lra).
    fold (log10 1.35). apply Ropp_le_contravar.
    apply (log10_le_frac 1.35 3 23); [lra | lia | INR_lra | lra]. }
  assert (Hc0 : log10 (2 / 2.7) <= 0).
  { rewrite <- (Rmult_0_l (/ ln 10)). unfold log10, Rdiv at 1.
    apply Rmult_le_compat_r;
      [left; apply Rinv_0_lt_compat, ln_10_pos|].
    rewrite <- ln_1. apply ln_le_mono; lra. }
  pose proof (Rpower_pos (sn + 1) 5.19) as Hp.
  assert (Hg : 0 < / (0.40 + 1094 / Rpower (sn + 1) 5.19) <= 2.5).
  { pose proof (slope_divisor_pos _ Hp) as Hd. split.
    - now apply Rinv_0_lt_compat.
    - replace 2.5 with (/ 0.40) by lra.
      apply Rinv_le_contravar; [lra|].
      assert (0 < 1094 / Rpower (sn + 1) 5.19)
        by (apply Rdiv_lt_0_compat; lra).
      lra. }
  rewrite HB. unfold Rdiv at 1.
  set (c := log10 (2 / 2.7)) in *.
  set (g := / (0.40 + 1094 / Rpower (sn + 1) 5.19)) in *.
  assert (- (3 / 23) * 2.5 <= c * g) by nra.
  lra.
Qed.

Lemma stiff_subgrade_run_exhausted :
  solve_for_sn 245 (-1.645) 0.45 2 100000000 0.01 100
  = Return (PyFloat (Fin (0.1 + (15.0 - 0.1) / 2 ^ 100))).
Proof.
  unfold solve_for_sn. change (Z.to_nat 100) with 100%nat.
  rewrite (bisect_stays_above (-1.645) 0.45 2 100000000 (245 * 1e6) 0.01
             0.1 100 15.0 None); [reflexivity | lra | lra |].
  intros sn Hsn. eexists.
  split; [apply calculate_w18_in_domain; lra|].
  pose proof (w18_stiff_subgrade_bound sn ltac:(lra)) as Hb.
  cbn [f_sub f_add f_opp f_abs f_ltb].
  split; apply Rltb_false; [|lra].
  rewrite Rabs_right by lra. lra.
Qed.

Lemma solve_for_sn_antitone_in_design_inputs_witness :
  0.1 + (15.0 - 0.1) / 2 ^ 100 <= 7.55.
Proof.
  apply (solve_for_sn_antitone_in_design_inputs
           245 0.45 (-1.645) (-1.645) 2 2 7500 100000000 0.01 100);
    try lra.
  - unfold solve_for_sn. change (Z.to_nat 100) with 100%nat.
    now rewrite first_midpoint_run_converges.
  - exact stiff_subgrade_run_exhausted.
Defined.
